(** * Moltbook command-line client: credential persistence and API gateway

    A shallow embedding of [molt-client.py]: the [MoltbookClient] class
    (constructor, header construction, registration, the gateway calls) and
    the feed branch of [run_menu], together with the parts of the Python
    runtime and of the [requests] and [python-dotenv] libraries that the
    client relies on.

    Conventions.
    - JSON values are the inductive [pyval]; a JSON object is a finite map
      from strings to values.
    - A computation is a function from the machine state to an [outcome]
      (a returned value or a raised exception) and a new state: a raised
      exception keeps the effects performed before it.
    - The remote server and the disk are oracles of the state: [server]
      answers each request, [write_faults] decides which file writes fail.
    - The [.env] file is kept as its ordered list of bindings; the textual
      layout (quoting, escapes, comments) and the variable expansion of
      [python-dotenv] are left out, and so is the refusal of a NUL
      character by [os.environ]. The model is exact for the values that are
      [plain] text; the theorems about values received from the server
      assume it of them. *)

From Stdlib Require Import ZArith Ascii DecimalString DecimalFacts DecimalNat SpecFloat.
From stdpp Require Import gmap strings list fin_maps.

Set Warnings "-register-all".

(** ** Python values and exceptions *)

Module Py.

(** Values produced by [json.loads]. *)
Inductive pyval :=
| PyNone
| PyBool (b : bool)
| PyInt (z : Z)
| PyFloat (f : spec_float)
| PyStr (s : string)
| PyList (l : list pyval)
| PyDict (d : gmap string pyval).

Inductive exn_class :=
| ConnectionError | HTTPError | JSONDecodeError
| AttributeError | KeyError | IndexError | TypeError | OSError | EOFError.

(** An exception: its class and the text that [str(e)] gives. *)
Record exn := Exception { exn_cls : exn_class; exn_msg : string }.

Inductive outcome (A : Type) :=
| Return (a : A)
| Raise (e : exn).
Arguments Return {A} a.
Arguments Raise {A} e.

(** [bool(v)], the test of [if v:] and [not v]. *)
Definition truthy (v : pyval) : bool :=
  match v with
  | PyNone => false
  | PyBool b => b
  | PyInt z => negb (Z.eqb z 0)
  | PyFloat (S754_zero _) => false
  | PyFloat _ => true
  | PyStr s => negb (String.eqb s "")
  | PyList l => negb (Nat.eqb (length l) 0)
  | PyDict d => negb (Nat.eqb (size d) 0)
  end.

(** [bool(s)] for an optional string, as [os.getenv] returns it. *)
Definition truthy_opt (o : option string) : bool :=
  match o with
  | None => false
  | Some s => negb (String.eqb s "")
  end.

Definition type_name (v : pyval) : string :=
  match v with
  | PyNone => "NoneType"
  | PyBool _ => "bool"
  | PyInt _ => "int"
  | PyFloat _ => "float"
  | PyStr _ => "str"
  | PyList _ => "list"
  | PyDict _ => "dict"
  end.

Definition no_attribute (v : pyval) (attr : string) : exn :=
  Exception AttributeError
    ("'" +:+ type_name v +:+ "' object has no attribute '" +:+ attr +:+ "'").

(** [v.get(key, dflt)]: only a dict has the method. *)
Definition get (v : pyval) (key : string) (dflt : pyval) : outcome pyval :=
  match v with
  | PyDict d => Return (default dflt (d !! key))
  | _ => Raise (no_attribute v "get")
  end.

(** [v[key]] for a string key. *)
Definition getitem (v : pyval) (key : string) : outcome pyval :=
  match v with
  | PyDict d =>
      match d !! key with
      | Some x => Return x
      | None => Raise (Exception KeyError ("'" +:+ key +:+ "'"))
      end
  | PyList _ =>
      Raise (Exception TypeError "list indices must be integers or slices, not str")
  | PyStr _ =>
      Raise (Exception TypeError "string indices must be integers, not 'str'")
  | _ =>
      Raise (Exception TypeError
               ("'" +:+ type_name v +:+ "' object is not subscriptable"))
  end.

(** [str(z)] for an integer. *)
Definition str_int (z : Z) : string := NilZero.string_of_int (Z.to_int z).

(** [s.isdigit()] on an ASCII string: non-empty and decimal digits only.
    Python also accepts the digits of other scripts, which are not ASCII. *)
Definition is_digit (a : ascii) : bool :=
  match Ascii.is_nat a with Some _ => true | None => false end.

Fixpoint all_digits (s : string) : bool :=
  match s with
  | EmptyString => true
  | String a s' => is_digit a && all_digits s'
  end.

Definition isdigit (s : string) : bool :=
  negb (String.eqb s "") && all_digits s.

(** [int(s)] for a string of ASCII decimal digits, which is all the client
    passes to it, and of no more digits than Python converts. *)
Definition int (s : string) : nat :=
  match NilZero.uint_of_string s with
  | Some d => Nat.of_uint d
  | None => 0
  end.

(** [s.lower()] on ASCII letters. *)
Definition lower_ascii (a : ascii) : ascii :=
  let n := nat_of_ascii a in
  if (65 <=? n)%nat && (n <=? 90)%nat then ascii_of_nat (n + 32) else a.

Fixpoint lower (s : string) : string :=
  match s with
  | EmptyString => EmptyString
  | String a s' => String (lower_ascii a) (lower s')
  end.

Definition not_subscriptable (v : pyval) : exn :=
  Exception TypeError ("'" +:+ type_name v +:+ "' object is not subscriptable").

(** [v[:n]]: a list gives its first [n] items, a string its first [n]
    characters (each a one-character string when iterated). *)
Definition slice (v : pyval) (n : nat) : outcome (list pyval) :=
  match v with
  | PyList l => Return (take n l)
  | PyStr s =>
      Return ((λ a, PyStr (String a EmptyString)) <$> take n (String.list_ascii_of_string s))
  | PyDict _ => Raise (Exception TypeError "unhashable type: 'slice'")
  | _ => Raise (not_subscriptable v)
  end.

(** [len(v)]. *)
Definition len (v : pyval) : outcome nat :=
  match v with
  | PyList l => Return (length l)
  | PyStr s => Return (String.length s)
  | PyDict d => Return (size d)
  | _ => Raise (Exception TypeError
                  ("object of type '" +:+ type_name v +:+ "' has no len()"))
  end.

(** [v[i]] for an index [i >= 0]. *)
Definition item (v : pyval) (i : nat) : outcome pyval :=
  match v with
  | PyList l =>
      match l !! i with
      | Some x => Return x
      | None => Raise (Exception IndexError "list index out of range")
      end
  | PyStr s =>
      match String.list_ascii_of_string s !! i with
      | Some a => Return (PyStr (String a EmptyString))
      | None => Raise (Exception IndexError "string index out of range")
      end
  | PyDict _ => Raise (Exception KeyError (str_int (Z.of_nat i)))
  | _ => Raise (not_subscriptable v)
  end.

(** [enumerate(l)]. *)
Definition enumerate {A} (l : list A) : list (nat * A) := imap pair l.

End Py.
Export Py.

(** ** The [requests] library: what is sent and what comes back *)

Module Requests.

Inductive http_method := GET | POST.

Record request := {
  rq_method : http_method;
  rq_url : string;
  rq_headers : gmap string string;       (* [headers=] *)
  rq_json : option pyval;                (* [json=] *)
  rq_params : option (gmap string string); (* [params=] *)
  rq_timeout : option Z                  (* [timeout=], seconds *)
}.

(** The body of a response as [response.json()] sees it. *)
Inductive body :=
| Json (v : pyval)
| NotJson (err : string).

Record response := {
  status_code : Z;
  reason : string;
  resp_url : string;
  resp_body : body
}.

(** A call either fails in transport (connection refused, timeout, ...)
    or yields a response, whatever its status. *)
Inductive reply :=
| Failed (e : exn)
| Replied (r : response).

(** [response.raise_for_status()]: statuses 400..599 raise. *)
Definition raise_for_status (r : response) : outcome unit :=
  if (400 <=? status_code r)%Z && (status_code r <? 500)%Z then
    Raise (Exception HTTPError
             (str_int (status_code r) +:+ " Client Error: " +:+ reason r
                +:+ " for url: " +:+ resp_url r))
  else if (500 <=? status_code r)%Z && (status_code r <? 600)%Z then
    Raise (Exception HTTPError
             (str_int (status_code r) +:+ " Server Error: " +:+ reason r
                +:+ " for url: " +:+ resp_url r))
  else Return tt.

(** [response.json()]. *)
Definition json (r : response) : outcome pyval :=
  match resp_body r with
  | Json v => Return v
  | NotJson err => Raise (Exception JSONDecodeError err)
  end.

End Requests.
Export Requests.

(** ** The [python-dotenv] library over the bindings of the file *)

Module Dotenv.

(** One binding of the file: [KEY=value], or a bare [KEY] with no value. *)
Definition binding : Type := string * option string.

(** [dotenv_values]: the file as a dict; a later binding of a key wins. *)
Definition dotenv_values (f : list binding) : gmap string (option string) :=
  foldl (λ m b, <[b.1 := b.2]> m) ∅ f.

(** The loop of [set_as_environment_variables]: a key already in the
    environment is skipped unless [override]; a bare key sets nothing. *)
Definition set_env_step (override : bool) (k : string) (v : option string)
    (environ : gmap string string) : gmap string string :=
  if negb override && bool_decide (is_Some (environ !! k)) then environ
  else match v with
       | Some s => <[k := s]> environ
       | None => environ
       end.

(** [load_dotenv(path, override)] on the contents of the file; a missing
    file is read as an empty one. The values are those of the bindings:
    unquoting, escapes and the expansion of variables belong to the reading
    of the file. *)
Definition load_values (override : bool) (file : option (list binding))
    (environ : gmap string string) : gmap string string :=
  map_fold (set_env_step override) environ (dotenv_values (default [] file)).

(** [set_key]: every binding of the key is rewritten; a new key is
    appended at the end. *)
Definition rewrite_key (key value : string) (f : list binding) : list binding :=
  if existsb (λ b, String.eqb b.1 key) f
  then map (λ b, if String.eqb b.1 key then (key, Some value) else b) f
  else f ++ [(key, Some value)].

(** The value the file gives a key: that of its last binding. *)
Fixpoint file_value (key : string) (f : list binding) : option (option string) :=
  match f with
  | [] => None
  | b :: f' =>
      match file_value key f' with
      | Some x => Some x
      | None => if String.eqb b.1 key then Some b.2 else None
      end
  end.

End Dotenv.
Export Dotenv.

(** ** The machine the client runs on *)

Record process := {
  environ : gmap string string;          (* [os.environ] *)
  cwd : string;                          (* [os.getcwd()] *)
  dotenv_file : option (list binding);   (* the [.env] of [cwd], if any *)
  write_faults : list (option exn);      (* fate of the next file writes *)
  server : request → reply;              (* the remote API *)
  sent : list request;                   (* the requests issued so far *)
  stdin : list string;                   (* lines still to be typed *)
  stdout : list string                   (* what was printed, in order *)
}.

(** [os.path.join(a, b)] for a relative [b]. *)
Fixpoint ends_with_sep (s : string) : bool :=
  match s with
  | EmptyString => false
  | String a EmptyString => Ascii.eqb a "/"
  | String _ s' => ends_with_sep s'
  end.

Definition path_join (a b : string) : string :=
  if String.eqb a "" || ends_with_sep a then a +:+ b else a +:+ "/" +:+ b.

(** [os.getenv(key)] and [os.getenv(key, dflt)]. *)
Definition getenv (p : process) (key : string) : option string :=
  environ p !! key.

Definition getenv_default (p : process) (key dflt : string) : string :=
  default dflt (environ p !! key).

(** [load_dotenv(path, override=...)]: only the environment changes. *)
Definition load_dotenv (override : bool) (p : process) : process :=
  {| environ := load_values override (dotenv_file p) (environ p);
     cwd := cwd p;
     dotenv_file := dotenv_file p;
     write_faults := write_faults p;
     server := server p; sent := sent p;
     stdin := stdin p;
     stdout := stdout p |}.

(** ** The client object *)

Record client := {
  base_url : string;
  env_path : string;
  api_key : option string;
  agent_id : option string;
  name : string
}.

(** [MoltbookClient.__init__]: the five fields it assigns, and the process
    after its [load_dotenv]. *)
Definition __init__ (p : process) : client * process :=
  let p' := load_dotenv false p in
  ({| base_url := "https://www.moltbook.com/api/v1";
      env_path := path_join (cwd p) ".env";
      api_key := getenv p' "MOLTBOOK_API_KEY";
      agent_id := getenv p' "MOLTBOOK_ID";
      name := getenv_default p' "MOLTBOOK_NAME" "Unknown Agent" |},
   p').

(** [MoltbookClient()]. *)
Definition MoltbookClient (p : process) : client * process := __init__ p.

(** [_get_headers]. *)
Definition _get_headers (c : client) : gmap string string :=
  if negb (truthy_opt (api_key c)) then ∅
  else {[ "Authorization" := "Bearer " +:+ default "" (api_key c);
          "Content-Type" := "application/json" ]}.

(** ** Computations: state, exceptions, [try]/[except] *)

Record state := {
  self : client;     (* the fields of the client object *)
  proc : process
}.

Definition M (A : Type) : Type := state → outcome A * state.

Definition ret {A} (a : A) : M A := λ st, (Return a, st).

Definition bind {A B} (m : M A) (k : A → M B) : M B :=
  λ st, match m st with
        | (Return a, st') => k a st'
        | (Raise e, st') => (Raise e, st')
        end.

(** A pure step that may raise. *)
Definition lift {A} (o : outcome A) : M A := λ st, (o, st).

(** [try: body except Exception as e: handler(e)]; the effects of the
    body up to the exception stay. *)
Definition try_except {A} (body : M A) (handler : exn → M A) : M A :=
  λ st, match body st with
        | (Return a, st') => (Return a, st')
        | (Raise e, st') => handler e st'
        end.

Declare Scope py_scope.
Delimit Scope py_scope with py.
Notation "x <- c1 ;; c2" := (bind c1 (λ x, c2))
  (at level 100, c1 at next level, right associativity) : py_scope.
Notation "c1 ;; c2" := (bind c1 (λ _, c2))
  (at level 100, right associativity) : py_scope.
Open Scope py_scope.

Fixpoint for_each {A} (l : list A) (body : A → M unit) : M unit :=
  match l with
  | [] => ret tt
  | x :: l' => body x ;; for_each l' body
  end.

Definition get_self : M client := λ st, (Return (self st), st).

Definition with_proc (f : process → process) (st : state) : state :=
  {| self := self st; proc := f (proc st) |}.

Definition set_stdout (out : list string) (p : process) : process :=
  {| environ := environ p; cwd := cwd p; dotenv_file := dotenv_file p;
     write_faults := write_faults p; server := server p; sent := sent p;
     stdin := stdin p; stdout := out |}.

Definition set_stdin (inp : list string) (p : process) : process :=
  {| environ := environ p; cwd := cwd p; dotenv_file := dotenv_file p;
     write_faults := write_faults p; server := server p; sent := sent p;
     stdin := inp; stdout := stdout p |}.

Definition set_disk (file : option (list binding)) (faults : list (option exn))
    (p : process) : process :=
  {| environ := environ p; cwd := cwd p; dotenv_file := file;
     write_faults := faults; server := server p; sent := sent p;
     stdin := stdin p; stdout := stdout p |}.

(** [print(s)]. *)
Definition print (s : string) : M unit :=
  λ st, (Return tt, with_proc (λ p, set_stdout (stdout p ++ [s]) p) st).

(** [input(prompt)]. *)
Definition input (prompt : string) : M string :=
  print prompt ;;
  λ st, match stdin (proc st) with
        | line :: rest => (Return line, with_proc (set_stdin rest) st)
        | [] => (Raise (Exception EOFError "EOF when reading a line"), st)
        end.

Definition log_request (rq : request) (p : process) : process :=
  {| environ := environ p; cwd := cwd p; dotenv_file := dotenv_file p;
     write_faults := write_faults p; server := server p;
     sent := sent p ++ [rq]; stdin := stdin p; stdout := stdout p |}.

(** [requests.get] / [requests.post]: the request goes out and the server's
    reply comes back, as a raised transport error or as a response. *)
Definition send (rq : request) : M response :=
  λ st, let st' := with_proc (log_request rq) st in
        match server (proc st) rq with
        | Failed e => (Raise e, st')
        | Replied r => (Return r, st')
        end.

(** [os.path.exists(self.env_path)]. *)
Definition path_exists : M bool :=
  λ st, (Return (bool_decide (is_Some (dotenv_file (proc st)))), st).

(** A write to the [.env] file: the next entry of [write_faults] decides
    whether it raises (the file is then left as it was) or goes through. *)
Definition write_file (update : list binding → list binding) : M unit :=
  λ st,
    let p := proc st in
    let done := Some (update (default [] (dotenv_file p))) in
    match write_faults p with
    | Some e :: rest => (Raise e, with_proc (set_disk (dotenv_file p) rest) st)
    | None :: rest => (Return tt, with_proc (set_disk done rest) st)
    | [] => (Return tt, with_proc (set_disk done []) st)
    end.

(** [with open(self.env_path, 'w') as f: f.write("")]. *)
Definition create_empty : M unit := write_file (λ _, []).

(** [set_key(self.env_path, key, value)]. *)
Definition set_key (key value : string) : M unit :=
  write_file (rewrite_key key value).

(** [load_dotenv(self.env_path, override=True)], on a file whose values
    [os.environ] takes: it refuses a value with a NUL character. *)
Definition load_dotenv_override : M unit :=
  λ st, (Return tt, with_proc (load_dotenv true) st).

(** [self.__init__()]: the fields of the object are assigned anew. *)
Definition reinit : M unit :=
  λ st, let '(c, p) := __init__ (proc st) in
        (Return tt, {| self := c; proc := p |}).

Definition nl : string := String (ascii_of_nat 10) EmptyString.

(** [str(n)] for a loop counter. *)
Definition str_nat (n : nat) : string := NilZero.string_of_uint (Nat.to_uint n).

(** ** The client's methods *)

Section Client.

(** [repr] of the values whose text Python computes by its own printing
    machinery (floats, lists, dicts); the client only passes it on. *)
Variable py_repr : pyval → string.

(** No float, list or dict prints as the empty text. *)
Hypothesis py_repr_nonempty : ∀ v, py_repr v ≠ "".

(** [str(v)], also what an f-string puts for [{v}]. *)
Definition str (v : pyval) : string :=
  match v with
  | PyNone => "None"
  | PyBool true => "True"
  | PyBool false => "False"
  | PyInt z => str_int z
  | PyStr s => s
  | PyFloat _ | PyList _ | PyDict _ => py_repr v
  end.

(** *** Registration *)

Definition register_request (c : client) (name description : string) : request :=
  {| rq_method := POST;
     rq_url := base_url c +:+ "/agents/register";
     rq_headers := ∅;
     rq_json := Some (PyDict {[ "name" := PyStr name;
                                "description" := PyStr description ]});
     rq_params := None;
     rq_timeout := Some 15%Z |}.

(** The dict literal [mapping] of [register], in the order of its items. *)
Definition mapping_fields : list (string * string) :=
  [ ("MOLTBOOK_ID", "id");
    ("MOLTBOOK_API_KEY", "api_key");
    ("MOLTBOOK_CLAIM_URL", "claim_url");
    ("MOLTBOOK_VERIFY_CODE", "verification_code");
    ("MOLTBOOK_NAME", "name") ].

Fixpoint build_mapping (agent_data : pyval) (fields : list (string * string))
    : outcome (list (string * pyval)) :=
  match fields with
  | [] => Return []
  | (env_key, field) :: rest =>
      match get agent_data field PyNone with
      | Raise e => Raise e
      | Return val =>
          match build_mapping agent_data rest with
          | Raise e => Raise e
          | Return m => Return ((env_key, val) :: m)
          end
      end
  end.

(** [for env_key, val in mapping.items(): if val: set_key(...)]. *)
Definition save_mapping (mapping : list (string * pyval)) : M unit :=
  for_each mapping
    (λ kv, if truthy kv.2 then set_key kv.1 (str kv.2) else ret tt).

(** The body of the [try] block of [register]. *)
Definition register_try (name description : string) : M bool :=
  c <- get_self ;;
  response <- send (register_request c name description) ;;
  lift (raise_for_status response) ;;
  data <- lift (json response) ;;
  agent_data <- lift (get data "agent" (PyDict ∅)) ;;
  if negb (truthy agent_data) then
    print "❌ Error: No agent data found in response." ;;
    ret false
  else
    ex <- path_exists ;;
    (if negb ex then create_empty else ret tt) ;;
    mapping <- lift (build_mapping agent_data mapping_fields) ;;
    save_mapping mapping ;;
    print "✅ Registration saved to .env!" ;;
    claim_url <- lift (get agent_data "claim_url" PyNone) ;;
    print ("🔗 CLAIM URL: " +:+ str claim_url) ;;
    load_dotenv_override ;;
    reinit ;;
    ret true.

Definition register (name description : string) : M bool :=
  print ("📡 Registering '" +:+ name +:+ "'...") ;;
  try_except (register_try name description)
    (λ e, print ("❌ Registration failed: " +:+ exn_msg e) ;; ret false).

(** *** API interaction methods *)

Definition feed_request (c : client) : request :=
  {| rq_method := GET; rq_url := base_url c +:+ "/feed";
     rq_headers := _get_headers c; rq_json := None;
     rq_params := None; rq_timeout := None |}.

Definition get_feed : M pyval :=
  try_except
    (c <- get_self ;;
     res <- send (feed_request c) ;;
     body <- lift (json res) ;;
     lift (get body "posts" (PyList [])))
    (λ _, ret (PyList [])).

Definition post_request (c : client) (content : string) : request :=
  {| rq_method := POST; rq_url := base_url c +:+ "/posts";
     rq_headers := _get_headers c;
     rq_json := Some (PyDict {[ "content" := PyStr content ]});
     rq_params := None; rq_timeout := None |}.

Definition post (content : string) : M pyval :=
  c <- get_self ;;
  res <- send (post_request c content) ;;
  lift (json res).

Definition comment_request (c : client) (post_id : pyval) (content : string)
    : request :=
  {| rq_method := POST;
     rq_url := base_url c +:+ "/posts/" +:+ str post_id +:+ "/comments";
     rq_headers := _get_headers c;
     rq_json := Some (PyDict {[ "content" := PyStr content ]});
     rq_params := None; rq_timeout := None |}.

Definition comment (post_id : pyval) (content : string) : M pyval :=
  c <- get_self ;;
  res <- send (comment_request c post_id content) ;;
  lift (json res).

Definition vote_request (c : client) (post_id : pyval) (direction : string)
    : request :=
  {| rq_method := POST;
     rq_url := base_url c +:+ "/posts/" +:+ str post_id +:+ "/vote";
     rq_headers := _get_headers c;
     rq_json := Some (PyDict {[ "direction" := PyStr direction ]});
     rq_params := None; rq_timeout := None |}.

Definition vote (post_id : pyval) (direction : string) : M pyval :=
  c <- get_self ;;
  res <- send (vote_request c post_id direction) ;;
  lift (json res).

Definition create_submolt_request (c : client) (name description : string)
    : request :=
  {| rq_method := POST; rq_url := base_url c +:+ "/submolts";
     rq_headers := _get_headers c;
     rq_json := Some (PyDict {[ "name" := PyStr name;
                                "description" := PyStr description ]});
     rq_params := None; rq_timeout := None |}.

Definition create_submolt (name description : string) : M pyval :=
  c <- get_self ;;
  res <- send (create_submolt_request c name description) ;;
  lift (json res).

Definition subscribe_request (c : client) (submolt_id : string) : request :=
  {| rq_method := POST;
     rq_url := base_url c +:+ "/submolts/" +:+ submolt_id +:+ "/subscribe";
     rq_headers := _get_headers c; rq_json := None;
     rq_params := None; rq_timeout := None |}.

Definition subscribe (submolt_id : string) : M pyval :=
  c <- get_self ;;
  res <- send (subscribe_request c submolt_id) ;;
  lift (json res).

Definition search_request (c : client) (query : string) : request :=
  {| rq_method := GET; rq_url := base_url c +:+ "/search";
     rq_headers := _get_headers c; rq_json := None;
     rq_params := Some {[ "q" := query; "type" := "semantic" ]};
     rq_timeout := None |}.

Definition semantic_search (query : string) : M pyval :=
  c <- get_self ;;
  res <- send (search_request c query) ;;
  lift (json res).

(** *** The menu: banner and the feed branch of [run_menu] *)

Definition rule : string := "══════════════════════════════".

(** The banner printed at the top of each round of the loop. *)
Definition banner (c : client) : string :=
  nl +:+ rule +:+ nl +:+ "  MOLTBOOK: " +:+ name c +:+ nl +:+ rule.

(** One line of the feed: the body of the [for i, p in enumerate(...)]. *)
Definition show_post (ip : nat * pyval) : M unit :=
  a <- lift (get ip.2 "author" (PyDict ∅)) ;;
  author <- lift (get a "name" (PyStr "Unknown")) ;;
  content <- lift (get ip.2 "content" PyNone) ;;
  print (str_nat (ip.1 + 1) +:+ ". [" +:+ str author +:+ "]: " +:+ str content).

(** [sel.isdigit() and 0 < int(sel) <= len(posts)]. *)
Definition in_range (sel : string) (posts : pyval) : outcome bool :=
  if isdigit sel && (0 <? int sel) then
    match len posts with
    | Return n => Return (int sel <=? n)
    | Raise e => Raise e
    end
  else Return false.

(** What follows the listing: the selection and the reply or vote. *)
Definition reply_or_vote (posts : pyval) : M unit :=
  sel <- input (nl +:+ "Enter # to reply/upvote, or 'b' for back: ") ;;
  ok <- lift (in_range sel posts) ;;
  if ok then
    target <- lift (item posts (int sel - 1)) ;;
    action <- input "(r)eply or (v)ote? " ;;
    if String.eqb (lower action) "r" then
      post_id <- lift (getitem target "id") ;;
      message <- input "Message: " ;;
      comment post_id message ;;
      print "✅ Reply sent!"
    else if String.eqb (lower action) "v" then
      post_id <- lift (getitem target "id") ;;
      vote post_id "up" ;;
      print "✅ Upvoted!"
    else ret tt
  else ret tt.

(** The branch [choice == "1"]. *)
Definition view_feed : M unit :=
  posts <- get_feed ;;
  if negb (truthy posts) then
    print "Feed is empty. Ensure your agent is 'claimed'."
  else
    shown <- lift (slice posts 10) ;;
    for_each (enumerate shown) show_post ;;
    reply_or_vote posts.

(** *** Readings of the specification's words *)

(** The body of a registration response carries a non-empty [agent]
    record. *)
Definition has_agent (data : pyval) : bool :=
  match data with
  | PyDict d =>
      match d !! "agent" with
      | Some a => truthy a
      | None => false
      end
  | _ => false
  end.

(** The key-value contents of the credential store: the bindings of the
    file, none when there is no file. *)
Definition store (p : process) : list binding := default [] (dotenv_file p).

(** *** The save loop in closed form *)

(** The [set_key] calls that the loop of [register] makes for a mapping:
    one for each item whose value passes [if val:], in order. *)
Definition persisted (mapping : list (string * pyval)) : list (string * string) :=
  (λ kv, (kv.1, str kv.2)) <$> List.filter (λ kv, truthy kv.2) mapping.

(** The file after these calls. *)
Definition saved (entries : list (string * string)) (f : list binding)
    : list binding :=
  foldl (λ f e, rewrite_key e.1 e.2 f) f entries.

(** What a step leaves alone when it only prints, sends or writes the file. *)
Definition same_session (st st' : state) : Prop :=
  self st' = self st
  ∧ environ (proc st') = environ (proc st)
  ∧ cwd (proc st') = cwd (proc st)
  ∧ server (proc st') = server (proc st).

(** The items of [mapping] for an agent record that is a dict. *)
Definition mapping_of (a : gmap string pyval) : list (string * pyval) :=
  (λ kf, (kf.1, default PyNone (a !! kf.2))) <$> mapping_fields.


(** The value the last of the entries with a key gives it. *)
Fixpoint entry_value (key : string) (entries : list (string * string))
    : option string :=
  match entries with
  | [] => None
  | e :: entries' =>
      match entry_value key entries' with
      | Some v => Some v
      | None => if String.eqb e.1 key then Some e.2 else None
      end
  end.


(** The requests of the API interaction methods of a client. *)
Inductive gateway_request (c : client) : request → Prop :=
| gateway_feed : gateway_request c (feed_request c)
| gateway_post content : gateway_request c (post_request c content)
| gateway_comment post_id content :
    gateway_request c (comment_request c post_id content)
| gateway_vote post_id direction :
    gateway_request c (vote_request c post_id direction)
| gateway_create_submolt name description :
    gateway_request c (create_submolt_request c name description)
| gateway_subscribe submolt_id :
    gateway_request c (subscribe_request c submolt_id)
| gateway_search query : gateway_request c (search_request c query).

(** The ways a registration attempt fails before the save loop writes a
    key: no reply, an error status, a body that is not JSON, a body
    without a non-empty [agent], or an [agent] that is not a record. *)
Inductive fails_before_saving (st : state) (name description : string) : Prop :=
| transport_failure e :
    server (proc st) (register_request (self st) name description) = Failed e →
    fails_before_saving st name description
| error_status r e :
    server (proc st) (register_request (self st) name description) = Replied r →
    raise_for_status r = Raise e →
    fails_before_saving st name description
| parse_failure r err :
    server (proc st) (register_request (self st) name description) = Replied r →
    resp_body r = NotJson err →
    fails_before_saving st name description
| no_agent_data r data :
    server (proc st) (register_request (self st) name description) = Replied r →
    resp_body r = Json data →
    has_agent data = false →
    fails_before_saving st name description
| agent_not_a_record r data v :
    server (proc st) (register_request (self st) name description) = Replied r →
    resp_body r = Json data →
    get data "agent" (PyDict ∅) = Return v →
    (∀ a, v ≠ PyDict a) →
    fails_before_saving st name description.

(** A call of [get_feed] that cannot yield posts: no reply, a body that is
    not JSON, or a JSON body without a [posts] field. *)
Definition feed_fails (st : state) : Prop :=
  match server (proc st) (feed_request (self st)) with
  | Failed _ => True
  | Replied r =>
      match resp_body r with
      | NotJson _ => True
      | Json (PyDict d) => d !! "posts" = None
      | Json _ => True
      end
  end.

(** "Present and non-empty", in the words of the specification: the value
    is there (not null) and, where it is a text or a collection, it has
    content. *)
Definition present_nonempty (v : pyval) : bool :=
  match v with
  | PyNone => false
  | PyStr s => negb (String.eqb s "")
  | PyList l => negb (Nat.eqb (length l) 0)
  | PyDict d => negb (Nat.eqb (size d) 0)
  | PyBool _ | PyInt _ | PyFloat _ => true
  end.

(** *** Sample machines *)

(** A stand-in for [repr] in the examples, whose runs never print a float,
    a list or a dict. *)
Definition sample_repr (v : pyval) : string := "<" +:+ type_name v +:+ ">".

Definition ok_response (v : pyval) : response :=
  {| status_code := 200; reason := "OK";
     resp_url := "https://www.moltbook.com/api/v1"; resp_body := Json v |}.

(** A server that cannot be reached. *)
Definition server_down (rq : request) : reply :=
  Failed (Exception ConnectionError "Connection refused").

(** A server that answers every request with the same JSON body. *)
Definition server_json (v : pyval) (rq : request) : reply :=
  Replied (ok_response v).

(** A first run: empty environment, no [.env], a disk that works. *)
Definition machine (srv : request → reply) : process :=
  {| environ := ∅; cwd := "/home/molty"; dotenv_file := None;
     write_faults := []; server := srv; sent := []; stdin := []; stdout := [] |}.

Definition boot (p : process) : state :=
  {| self := (MoltbookClient p).1; proc := (MoltbookClient p).2 |}.


(** An agent with the number zero as id and the text None as name. *)
Definition zero_agent : pyval :=
  PyDict {[ "id" := PyInt 0;
            "api_key" := PyStr "moltbook_sk_1";
            "claim_url" := PyStr "https://www.moltbook.com/claim/0";
            "name" := PyStr "None" ]}.

Definition registered (agent : pyval) : pyval :=
  PyDict {[ "success" := PyBool true; "agent" := agent ]}.


(** No [.env] and no API key, with id and name exported in the shell. *)
Definition exported_identity : process :=
  {| environ := {[ "MOLTBOOK_ID" := "a42"; "MOLTBOOK_NAME" := "molty" ]};
     cwd := "/home/molty"; dotenv_file := None;
     write_faults := []; server := server_down; sent := [];
     stdin := []; stdout := [] |}.

(** A feed of eleven posts, numbered from 1. *)
Definition sample_post (n : nat) : pyval :=
  PyDict {[ "id" := PyInt (Z.of_nat n);
            "content" := PyStr "hello";
            "author" := PyDict {[ "name" := PyStr "crab" ]} ]}.

Definition sample_posts : list pyval := sample_post <$> seq 1 11.

(** The user opens the feed, types 11 and then v. *)
Definition feed_session : state :=
  let p := machine (server_json (PyDict {[ "posts" := PyList sample_posts ]})) in
  {| self := (MoltbookClient p).1;
     proc := set_stdin ["11"; "v"] (MoltbookClient p).2 |}.

(** *** The rest of [run_menu]: the other branches and the loop *)

(** [for p in v]: the items the loop visits. A dict yields its keys, each
    a string; the loops of the menu fail on the first of them whatever it
    is, so their order is immaterial here. *)
Definition iter (v : pyval) : outcome (list pyval) :=
  match v with
  | PyList l => Return l
  | PyStr s =>
      Return ((λ a, PyStr (String a EmptyString)) <$> String.list_ascii_of_string s)
  | PyDict d => Return (PyStr <$> (map_to_list d).*1)
  | _ => Raise (Exception TypeError
                  ("'" +:+ type_name v +:+ "' object is not iterable"))
  end.

(** The branch [choice == "2"]. *)
Definition new_post : M unit :=
  content <- input "What's on your mind? " ;;
  post content ;;
  print "✅ Post sent!".

(** One line of the search results. *)
Definition show_result (p : pyval) : M unit :=
  content <- lift (getitem p "content") ;;
  print ("- " +:+ str content).

(** The branch [choice == "3"]. *)
Definition search : M unit :=
  query <- input "Search meaning: " ;;
  results <- semantic_search query ;;
  posts <- lift (get results "posts" (PyList [])) ;;
  found <- lift (iter posts) ;;
  for_each found show_result.

(** The branch [choice == "4"]. *)
Definition new_submolt : M unit :=
  name <- input "Submolt Name: " ;;
  desc <- input "Description: " ;;
  res <- create_submolt name desc ;;
  id <- lift (get res "id" PyNone) ;;
  print ("✅ Created! ID: " +:+ str id).

(** The branch [choice == "5"]. *)
Definition join_submolt : M unit :=
  submolt_id <- input "Enter Submolt ID: " ;;
  subscribe submolt_id ;;
  print "✅ Subscribed!".

(** The [if]/[elif] chain on [choice]: whether the loop goes on. *)
Definition dispatch (choice : string) : M bool :=
  if String.eqb choice "1" then view_feed ;; ret true
  else if String.eqb choice "2" then new_post ;; ret true
  else if String.eqb choice "3" then search ;; ret true
  else if String.eqb choice "4" then new_submolt ;; ret true
  else if String.eqb choice "5" then join_submolt ;; ret true
  else if String.eqb choice "6" then ret false
  else ret true.

(** The lines of the menu under the banner. *)
Definition menu_lines : list string :=
  [ "1. 📱 View Feed & Reply";
    "2. ✍️  New Post";
    "3. 🔍 Semantic Search";
    "4. 🏗️  Create Submolt";
    "5. ➕ Join Submolt (by ID)";
    "6. 🚪 Exit" ].

(** One round of the [while True] loop. *)
Definition menu_round : M bool :=
  c <- get_self ;;
  print (banner c) ;;
  for_each menu_lines print ;;
  choice <- input (nl +:+ "Select action: ") ;;
  dispatch choice.

(** How a bounded run of the loop ends: by the [break] of choice 6 or the
    early [return], or by using up the rounds it was given. *)
Inductive ending := Finished | OutOfFuel.

(** [while True: ...], run for [fuel] rounds at most. *)
Fixpoint menu_loop (fuel : nat) : M ending :=
  match fuel with
  | 0 => ret OutOfFuel
  | S fuel' =>
      again <- menu_round ;;
      if again then menu_loop fuel' else ret Finished
  end.

(** The first-run exchange: [if not client.api_key: ...]; whether the menu
    is to be shown. *)
Definition first_run : M bool :=
  c <- get_self ;;
  if negb (truthy_opt (api_key c)) then
    print "Welcome to Moltbook! No credentials found." ;;
    name <- input "Enter Agent Name: " ;;
    desc <- input "Enter Agent Description: " ;;
    register name desc
  else ret true.

(** [run_menu()], its loop bounded by [fuel]. *)
Definition run_menu (fuel : nat) (p : process) : outcome ending * state :=
  (proceed <- first_run ;;
   if proceed then menu_loop fuel else ret Finished)
    {| self := (MoltbookClient p).1; proc := (MoltbookClient p).2 |}.

(** *** Relations between the state before and after a computation *)

(** Whatever the computation returns or raises, the states before and
    after it are related by [R]. *)
Definition keeps {A} (R : state → state → Prop) (m : M A) : Prop :=
  ∀ st, R st (m st).2.

(** No request was issued. *)
Definition same_log (st st' : state) : Prop :=
  sent (proc st') = sent (proc st).

(** The client object, the environment, the credential file and the disk
    are as they were. *)
Definition local_untouched (st st' : state) : Prop :=
  self st' = self st
  ∧ environ (proc st') = environ (proc st)
  ∧ cwd (proc st') = cwd (proc st)
  ∧ dotenv_file (proc st') = dotenv_file (proc st)
  ∧ write_faults (proc st') = write_faults (proc st)
  ∧ server (proc st') = server (proc st).

(** The typed lines still to be read are a tail of those there were. *)
Definition consumes (st st' : state) : Prop :=
  stdin (proc st') `suffix_of` stdin (proc st).

(** The keys of the credential file are still there, in their order; new
    ones come after them. *)
Definition keys_kept (st st' : state) : Prop :=
  (store (proc st)).*1 `prefix_of` (store (proc st')).*1.

(** What a method without [try] hands to its caller for a reply. *)
Definition passed_on (rp : reply) : outcome pyval :=
  match rp with
  | Failed e => Raise e
  | Replied r => json r
  end.

(** *** States reached by printing, reading and sending *)

(** The state after the lines have been printed. *)
Definition printed (line : string) (st : state) : state :=
  with_proc (λ p, set_stdout (stdout p ++ [line]) p) st.

(** The state after a typed line has been read, [rest] being left. *)
Definition read_up_to (rest : list string) (st : state) : state :=
  with_proc (set_stdin rest) st.

(** The state after the request has been issued. *)
Definition requested (rq : request) (st : state) : state :=
  with_proc (log_request rq) st.

(** The prompt of the selection in the feed view. *)
Definition selection_prompt : string :=
  nl +:+ "Enter # to reply/upvote, or 'b' for back: ".

(** The state once the banner and the six lines of the menu are shown. *)
Definition menu_shown (st : state) : state :=
  foldl (λ s line, printed line s) (printed (banner (self st)) st) menu_lines.

(** The prompt for the choice. *)
Definition choice_prompt : string := nl +:+ "Select action: ".

(** *** More sample machines *)

(** A reply with an error status and a JSON body. *)
Definition unauthorized (v : pyval) : response :=
  {| status_code := 401; reason := "Unauthorized";
     resp_url := "https://www.moltbook.com/api/v1"; resp_body := Json v |}.

Definition server_unauthorized (v : pyval) (rq : request) : reply :=
  Replied (unauthorized v).

(** A session in which the lines are still to be typed. *)
Definition typing (lines : list string) (srv : request → reply) : state :=
  read_up_to lines (boot (machine srv)).

(** A first run on which the user will type the lines. *)
Definition first_run_machine (lines : list string) (srv : request → reply)
    : process :=
  set_stdin lines (machine srv).


(** A post without author and without id. *)
Definition anonymous_post : gmap string pyval := {[ "content" := PyStr "yo" ]}.

(** A post whose author is null. *)
Definition orphan_post : gmap string pyval :=
  {[ "id" := PyInt 3; "content" := PyStr "hm"; "author" := PyNone ]}.

(** *** Inputs on which the model of the libraries is exact *)






(** *** The listing of the feed in closed form *)

(** A post that the listing can show: a record whose [author], when it has
    one, is a record too. *)
Definition listable (p : pyval) : bool :=
  match p with
  | PyDict d =>
      match d !! "author" with
      | None | Some (PyDict _) => true
      | Some _ => false
      end
  | _ => false
  end.

(** The name shown for the author of a post. *)
Definition author_shown (p : pyval) : pyval :=
  match p with
  | PyDict d =>
      match d !! "author" with
      | Some (PyDict a) => default (PyStr "Unknown") (a !! "name")
      | _ => PyStr "Unknown"
      end
  | _ => PyStr "Unknown"
  end.

(** The content shown for a post. *)
Definition content_shown (p : pyval) : pyval :=
  match p with
  | PyDict d => default PyNone (d !! "content")
  | _ => PyNone
  end.

(** The line of the listing for the post [ip.2] at position [ip.1]. *)
Definition feed_line (ip : nat * pyval) : string :=
  str_nat (ip.1 + 1) +:+ ". [" +:+ str (author_shown ip.2) +:+ "]: "
    +:+ str (content_shown ip.2).

(** The lines printed so far are still at the head of the output. *)
Definition output_grows (st st' : state) : Prop :=
  stdout (proc st) `prefix_of` stdout (proc st').

(** The user opens the feed, types 11, then V and a line that is left
    unread. *)
Definition long_feed_session : state :=
  let p := machine (server_json (PyDict {[ "posts" := PyList sample_posts ]})) in
  {| self := (MoltbookClient p).1;
     proc := set_stdin ["11"; "V"; "6"] (MoltbookClient p).2 |}.

(** * Properties *)

(** ** The credential file *)

Section DotenvFacts.

Implicit Types (f : list binding) (k key : string) (v : string).

Lemma lookup_foldl_bindings f (m : gmap string (option string)) k :
  foldl (λ m b, <[b.1 := b.2]> m) m f !! k
  = match file_value k f with Some x => Some x | None => m !! k end.
Proof.
  revert m. induction f as [|b f IH]; intros m; simpl; [done|].
  rewrite IH. destruct (file_value k f) as [x|]; [done|].
  destruct (String.eqb_spec b.1 k) as [->|Hne].
  - by rewrite lookup_insert_eq.
  - by rewrite lookup_insert_ne.
Qed.

Lemma lookup_dotenv_values f k :
  dotenv_values f !! k = file_value k f.
Proof.
  unfold dotenv_values. rewrite lookup_foldl_bindings, lookup_empty.
  by destruct (file_value k f).
Qed.

Lemma file_value_app f1 f2 k :
  file_value k (f1 ++ f2)
  = match file_value k f2 with Some x => Some x | None => file_value k f1 end.
Proof.
  induction f1 as [|b f1 IH]; simpl.
  - by destruct (file_value k f2).
  - rewrite IH. by destruct (file_value k f2).
Qed.

Lemma file_value_absent f k :
  existsb (λ b, String.eqb b.1 k) f = false → file_value k f = None.
Proof.
  induction f as [|b f IH]; simpl; [done|].
  intros [Hb Hf]%orb_false_iff. by rewrite IH, Hb.
Qed.

Lemma file_value_rewritten f key v :
  existsb (λ b, String.eqb b.1 key) f = true →
  file_value key (map (λ b, if String.eqb b.1 key then (key, Some v) else b) f)
  = Some (Some v).
Proof.
  induction f as [|b f IH]; simpl; [done|].
  destruct (existsb (λ b, String.eqb b.1 key) f) eqn:Hf.
  - intros _. by rewrite IH.
  - rewrite orb_false_r. intros Hb. rewrite Hb. simpl.
    rewrite String.eqb_refl.
    rewrite file_value_absent; [done|].
    clear IH Hb. induction f as [|b' f IH]; simpl in *; [done|].
    apply orb_false_iff in Hf as [Hb' Hf]. rewrite Hb'. simpl.
    by rewrite Hb', IH.
Qed.

Lemma file_value_rewrite_other f key k v :
  key ≠ k →
  file_value k (map (λ b, if String.eqb b.1 key then (key, Some v) else b) f)
  = file_value k f.
Proof.
  intros Hne. induction f as [|b f IH]; simpl; [done|].
  rewrite IH. destruct (file_value k f) as [x|]; [done|].
  destruct (String.eqb_spec b.1 key) as [Hb|Hb]; simpl.
  - rewrite Hb. by destruct (String.eqb_spec key k).
  - done.
Qed.

(** What [set_key] does to the value of every key of the file. *)
Lemma file_value_rewrite_key f key v k :
  file_value k (rewrite_key key v f)
  = if String.eqb key k then Some (Some v) else file_value k f.
Proof.
  unfold rewrite_key.
  destruct (existsb (λ b, String.eqb b.1 key) f) eqn:Hex.
  - destruct (String.eqb_spec key k) as [<-|Hne].
    + by apply file_value_rewritten.
    + by apply file_value_rewrite_other.
  - rewrite file_value_app. simpl. by destruct (String.eqb key k).
Qed.

Lemma dotenv_values_rewrite_key f key v :
  dotenv_values (rewrite_key key v f) = <[key := Some v]> (dotenv_values f).
Proof.
  apply map_eq. intros k. rewrite lookup_dotenv_values, file_value_rewrite_key.
  destruct (String.eqb_spec key k) as [<-|Hne].
  - by rewrite lookup_insert_eq.
  - by rewrite lookup_insert_ne, lookup_dotenv_values.
Qed.

(** What [load_dotenv] leaves in the environment, key by key. *)
Lemma lookup_load_values override file (env : gmap string string) k :
  load_values override file env !! k
  = match file_value k (default [] file) with
    | Some (Some v) =>
        if override then Some v
        else match env !! k with Some e => Some e | None => Some v end
    | _ => env !! k
    end.
Proof.
  unfold load_values. rewrite <- lookup_dotenv_values.
  generalize (dotenv_values (default [] file)). intros vals.
  induction vals as [|i x vals Hi Hfold IH] using map_first_key_ind.
  - rewrite map_fold_empty. by rewrite lookup_empty.
  - rewrite map_fold_insert_first_key by done.
    unfold set_env_step at 1.
    destruct (decide (i = k)) as [->|Hne].
    + rewrite lookup_insert_eq. rewrite Hi in IH.
      destruct override; simpl.
      * destruct x as [s|]; [by rewrite lookup_insert_eq | done].
      * case_bool_decide as Hs.
        -- rewrite IH. destruct Hs as [e He]. rewrite IH in He. rewrite He.
           by destruct x.
        -- destruct x as [s|].
           ++ rewrite lookup_insert_eq.
              rewrite IH in Hs. destruct (env !! k); [|done].
              exfalso. apply Hs. eauto.
           ++ done.
    + rewrite lookup_insert_ne by done.
      destruct (negb override && _).
      * done.
      * destruct x as [s|]; [by rewrite lookup_insert_ne | done].
Qed.

End DotenvFacts.

(** ** Registration *)

(** Registration always hands a boolean back to its caller. *)
Lemma register_returns name description st :
  ∃ b st', register name description st = (Return b, st').
Proof.
  unfold register, bind, print, try_except. simpl.
  destruct (register_try name description _) as [[b|e] st']; simpl; eauto.
Qed.

(** C1: a response whose body has no [agent] record, or an empty one,
    makes [register] return [False]; no write to the credential file is
    even attempted, so the file, the environment and the client are as
    before. *)
Theorem register_without_agent name description st r data :
  server (proc st) (register_request (self st) name description) = Replied r →
  resp_body r = Json data →
  has_agent data = false →
  let res := register name description st in
  res.1 = Return false
  ∧ dotenv_file (proc res.2) = dotenv_file (proc st)
  ∧ write_faults (proc res.2) = write_faults (proc st)
  ∧ environ (proc res.2) = environ (proc st)
  ∧ self res.2 = self st.
Proof.
  intros Hsrv Hbody Hagent.
  unfold register, bind, print, try_except, register_try, bind, get_self, send,
    lift, ret. simpl. rewrite Hsrv.
  destruct (raise_for_status r); simpl; [|done].
  unfold json. rewrite Hbody.
  destruct data as [| | | | |l|d]; simpl; try done.
  simpl in Hagent. destruct (d !! "agent") as [ag|]; simpl.
  - rewrite Hagent. simpl. done.
  - rewrite map_size_empty. simpl. done.
Qed.

(** ** The save loop *)

Lemma bind_run {A B} (m : M A) (k : A → M B) st :
  bind m k st
  = match m st with
    | (Return a, st') => k a st'
    | (Raise e, st') => (Raise e, st')
    end.
Proof. reflexivity. Qed.

Lemma same_session_refl st : same_session st st.
Proof. by repeat split. Qed.

Lemma same_session_trans st1 st2 st3 :
  same_session st1 st2 → same_session st2 st3 → same_session st1 st3.
Proof.
  intros (?&?&?&?) (?&?&?&?). repeat split; congruence.
Qed.

Lemma write_file_spec update st :
  let r := write_file update st in
  same_session st r.2
  ∧ match r.1 with
    | Return _ => dotenv_file (proc r.2) = Some (update (store (proc st)))
    | Raise _ => dotenv_file (proc r.2) = dotenv_file (proc st)
    end.
Proof.
  unfold write_file, store. destruct (write_faults (proc st)) as [|[e|] rest];
    simpl; repeat split.
Qed.

Lemma saved_snoc entries e f :
  saved (entries ++ [e]) f = rewrite_key e.1 e.2 (saved entries f).
Proof. unfold saved. by rewrite foldl_app. Qed.

(** The loop either completes, and the store holds every entry, or stops
    at the first write that fails, and the store holds the entries written
    before it. *)
Lemma save_mapping_spec mapping st :
  let r := save_mapping mapping st in
  same_session st r.2
  ∧ (is_Some (dotenv_file (proc st)) → is_Some (dotenv_file (proc r.2)))
  ∧ match r.1 with
    | Return _ => store (proc r.2) = saved (persisted mapping) (store (proc st))
    | Raise _ =>
        ∃ n, n < length (persisted mapping)
             ∧ store (proc r.2) = saved (take n (persisted mapping)) (store (proc st))
    end.
Proof.
  cbv zeta. revert st. induction mapping as [|[k v] mapping IH]; intros st.
  - simpl. split; [apply same_session_refl|]. done.
  - unfold save_mapping, persisted in *. simpl for_each. simpl List.filter.
    rewrite bind_run. simpl fst; simpl snd.
    destruct (truthy v) eqn:Hv.
    + unfold set_key.
      pose proof (write_file_spec (rewrite_key k (str v)) st) as [Hs Hw].
      destruct (write_file (rewrite_key k (str v)) st) as [[[]|e] st1]; simpl in Hs, Hw.
      * specialize (IH st1) as (Hs1 & Hex1 & IH).
        split; [by eapply same_session_trans|].
        split; [intros _; apply Hex1; rewrite Hw; eauto|].
        assert (store (proc st1) = rewrite_key k (str v) (store (proc st))) as Hst
          by (unfold store at 1; by rewrite Hw).
        destruct (for_each mapping _ st1) as [[[]|e] st2]; simpl in *.
        -- by rewrite IH, Hst.
        -- destruct IH as (n & Hn & IH). exists (S n).
           split; [exact (proj1 (Nat.succ_lt_mono _ _) Hn)|].
           simpl. by rewrite IH, Hst.
      * simpl. split; [done|]. split; [by rewrite Hw|].
        exists 0. split; [lia|]. simpl. unfold store. by rewrite Hw.
    + unfold ret at 1. apply IH.
Qed.

Lemma write_file_no_fault update st :
  Forall (eq None) (write_faults (proc st)) →
  (write_file update st).1 = Return tt
  ∧ Forall (eq None) (write_faults (proc (write_file update st).2)).
Proof.
  unfold write_file. destruct (write_faults (proc st)) as [|[e|] rest]; simpl.
  - done.
  - intros H. by inversion H.
  - intros H. inversion H; subst. done.
Qed.

Lemma save_mapping_no_fault mapping st :
  Forall (eq None) (write_faults (proc st)) →
  (save_mapping mapping st).1 = Return tt.
Proof.
  revert st. induction mapping as [|[k v] mapping IH]; intros st Hf; [done|].
  unfold save_mapping in *. simpl for_each. rewrite bind_run. simpl fst; simpl snd.
  destruct (truthy v).
  - unfold set_key.
    destruct (write_file_no_fault (rewrite_key k (str v)) st Hf) as [Hr Hf'].
    destruct (write_file _ st) as [[[]|e] st1]; simpl in *; [|done].
    by apply IH.
  - unfold ret at 1. by apply IH.
Qed.

(** ** Running [register] *)

Lemma build_mapping_dict a :
  build_mapping (PyDict a) mapping_fields = Return (mapping_of a).
Proof. reflexivity. Qed.

Lemma build_mapping_not_dict v :
  (∀ a, v ≠ PyDict a) →
  build_mapping v mapping_fields = Raise (no_attribute v "get").
Proof. intros Hv. destruct v; try done. by destruct (Hv d). Qed.


(** The symbolic run of [register] once the server has answered with a
    non-empty [agent] dict: it ends in [True] after every entry is saved and
    the client is rebuilt from the reloaded file, or in [False] at a write
    that fails, with the entries written so far in the store. *)
Lemma register_with_agent name description st r data a :
  server (proc st) (register_request (self st) name description) = Replied r →
  raise_for_status r = Return tt →
  resp_body r = Json data →
  get data "agent" (PyDict ∅) = Return (PyDict a) →
  truthy (PyDict a) = true →
  let res := register name description st in
  let entries := persisted (mapping_of a) in
  match res.1 with
  | Return true =>
      is_Some (dotenv_file (proc res.2))
      ∧ store (proc res.2) = saved entries (store (proc st))
      ∧ ∃ p, (self res.2, proc res.2) = __init__ (load_dotenv true p)
             ∧ dotenv_file p = dotenv_file (proc res.2)
             ∧ environ p = environ (proc st)
             ∧ cwd p = cwd (proc st)
             ∧ server p = server (proc st)
  | Return false =>
      same_session st res.2
      ∧ ∃ n, n ≤ length entries
             ∧ store (proc res.2) = saved (take n entries) (store (proc st))
  | Raise _ => False
  end.
Proof.
  intros Hsrv Hstatus Hbody Hget Hagent res entries.
  assert (res = register name description st) as Hres by reflexivity.
  clearbody res.
  unfold register in Hres. rewrite bind_run in Hres. unfold print at 1 in Hres.
  unfold try_except, register_try in Hres.
  rewrite bind_run in Hres. unfold get_self at 1 in Hres. simpl self in Hres.
  rewrite bind_run in Hres. unfold send at 1 in Hres.
  simpl proc in Hres. simpl server in Hres. rewrite Hsrv in Hres.
  rewrite bind_run in Hres. unfold lift at 1 in Hres. rewrite Hstatus in Hres.
  rewrite bind_run in Hres. unfold lift at 1, json in Hres. rewrite Hbody in Hres.
  rewrite bind_run in Hres. unfold lift at 1 in Hres. rewrite Hget, Hagent in Hres.
  change (negb true) with false in Hres. cbv iota in Hres.
  set (st0 := with_proc (log_request _) _) in Hres.
  assert (same_session st st0) as Hs0 by (by repeat split).
  assert (dotenv_file (proc st0) = dotenv_file (proc st)) as Hf0 by done.
  clearbody st0.
  rewrite bind_run in Hres. unfold path_exists at 1 in Hres.
  cbv beta iota in Hres. rewrite bind_run in Hres.
  (* the file is there once the existence check is over, or the run is over *)
  assert ((∃ st1, (if negb (bool_decide (is_Some (dotenv_file (proc st0))))
                   then create_empty else ret tt) st0 = (Return tt, st1)
                  ∧ same_session st st1
                  ∧ is_Some (dotenv_file (proc st1))
                  ∧ store (proc st1) = store (proc st))
          ∨ (∃ e st1, (if negb (bool_decide (is_Some (dotenv_file (proc st0))))
                       then create_empty else ret tt) st0 = (Raise e, st1)
                      ∧ same_session st st1
                      ∧ store (proc st1) = store (proc st))) as Hcreate.
  { case_bool_decide as Hex; simpl.
    - left. exists st0. repeat (split; [done|]). unfold store. by rewrite Hf0.
    - pose proof (write_file_spec (λ _, []) st0) as [Hs Hw].
      unfold create_empty.
      assert (dotenv_file (proc st0) = None) as Hnone.
      { destruct (dotenv_file (proc st0)); [|done]. destruct Hex. eauto. }
      destruct (write_file _ st0) as [[[]|e] st1]; simpl in Hs, Hw.
      + left. exists st1. split; [done|].
        split; [by eapply same_session_trans|].
        split; [rewrite Hw; eauto|].
        unfold store. by rewrite Hw, <- Hf0, Hnone.
      + right. exists e, st1. split; [done|].
        split; [by eapply same_session_trans|].
        unfold store. by rewrite Hw, Hf0. }
  destruct Hcreate as [(st1 & Hrun & Hs1 & Hex1 & Hst1)|(e & st1 & Hrun & Hs1 & Hst1)];
    rewrite Hrun in Hres; clear Hrun.
  2: { rewrite Hres. simpl. split; [done|]. exists 0. split; [lia|].
       unfold store in *. simpl. done. }
  rewrite bind_run in Hres. unfold lift at 1 in Hres.
  rewrite build_mapping_dict in Hres.
  rewrite bind_run in Hres.
  pose proof (save_mapping_spec (mapping_of a) st1) as (Hs2 & Hex2 & Hsave).
  destruct (save_mapping (mapping_of a) st1) as [[[]|e] st2]; simpl in Hs2, Hex2, Hsave.
  2: { rewrite Hres. simpl. split; [by eapply same_session_trans|].
       destruct Hsave as (n & Hn & Hsave). exists n. split; [unfold entries; lia|].
       unfold store in *. simpl. by rewrite Hsave, Hst1. }
  simpl in Hres.
  match type of Hres with context [load_dotenv true ?p] => set (p3 := p) in Hres end.
  rewrite Hres. simpl.
  destruct Hs1 as (?&?&?&?). destruct Hs2 as (?&?&?&?).
  split; [by apply Hex2|].
  split; [unfold store in *; simpl; by rewrite Hsave, Hst1|].
  exists p3. split; [reflexivity|]. simpl. repeat split; congruence.
Qed.






Lemma gateway_request_headers c rq :
  gateway_request c rq → rq_headers rq = _get_headers c.
Proof. by destruct 1. Qed.



(** A registration attempt that fails before the save loop returns [False]
    and leaves the contents of the store and the client as they were. *)
Lemma register_fails_early agent_name description st :
  fails_before_saving st agent_name description →
  let res := register agent_name description st in
  res.1 = Return false
  ∧ store (proc res.2) = store (proc st)
  ∧ same_session st res.2.
Proof.
  intros Hfail res.
  assert (res = register agent_name description st) as Hres by reflexivity.
  clearbody res.
  unfold register in Hres. rewrite bind_run in Hres. unfold print at 1 in Hres.
  unfold try_except, register_try in Hres.
  rewrite bind_run in Hres. unfold get_self at 1 in Hres. simpl self in Hres.
  rewrite bind_run in Hres. unfold send at 1 in Hres.
  simpl proc in Hres. simpl server in Hres.
  destruct Hfail as [e Hsrv|r e Hsrv Hstatus|r err Hsrv Hbody
                    |r data Hsrv Hbody Hagent|r data v Hsrv Hbody Hget Hv];
    rewrite Hsrv in Hres.
  - rewrite Hres. by repeat split.
  - rewrite bind_run in Hres. unfold lift at 1 in Hres. rewrite Hstatus in Hres.
    rewrite Hres. by repeat split.
  - rewrite bind_run in Hres. unfold lift at 1 in Hres.
    destruct (raise_for_status r) as [[]|e]; [|rewrite Hres; by repeat split].
    rewrite bind_run in Hres. unfold lift at 1, json in Hres. rewrite Hbody in Hres.
    rewrite Hres. by repeat split.
  - rewrite bind_run in Hres. unfold lift at 1 in Hres.
    destruct (raise_for_status r) as [[]|e]; [|rewrite Hres; by repeat split].
    rewrite bind_run in Hres. unfold lift at 1, json in Hres. rewrite Hbody in Hres.
    rewrite bind_run in Hres. unfold lift at 1 in Hres.
    destruct data as [| | | | | |d]; try (rewrite Hres; by repeat split).
    simpl in Hagent, Hres. destruct (d !! "agent") as [ag|]; simpl in Hres.
    + rewrite Hagent in Hres. rewrite Hres. by repeat split.
    + rewrite map_size_empty in Hres. rewrite Hres. by repeat split.
  - rewrite bind_run in Hres. unfold lift at 1 in Hres.
    destruct (raise_for_status r) as [[]|e]; [|rewrite Hres; by repeat split].
    rewrite bind_run in Hres. unfold lift at 1, json in Hres. rewrite Hbody in Hres.
    rewrite bind_run in Hres. unfold lift at 1 in Hres. rewrite Hget in Hres.
    destruct (truthy v); [|rewrite Hres; by repeat split].
    change (negb true) with false in Hres. cbv iota in Hres.
    set (st0 := with_proc (log_request _) _) in Hres.
    assert (same_session st st0) as Hs0 by (by repeat split).
    assert (store (proc st0) = store (proc st)) as Hf0 by done.
    clearbody st0.
    rewrite bind_run in Hres. unfold path_exists at 1 in Hres.
    cbv beta iota in Hres. rewrite bind_run in Hres.
    assert (∃ o st1, (if negb (bool_decide (is_Some (dotenv_file (proc st0))))
                      then create_empty else ret tt) st0 = (o, st1)
                     ∧ same_session st st1
                     ∧ store (proc st1) = store (proc st))
      as (o & st1 & Hrun & Hs1 & Hst1).
    { case_bool_decide as Hex; simpl.
      - by exists (Return tt), st0.
      - pose proof (write_file_spec (λ _, []) st0) as [Hs Hw].
        unfold create_empty.
        assert (dotenv_file (proc st0) = None) as Hnone.
        { destruct (dotenv_file (proc st0)); [|done]. destruct Hex. eauto. }
        destruct (write_file _ st0) as [o st1]; simpl in Hs, Hw.
        exists o, st1. split; [done|].
        split; [by eapply same_session_trans|].
        rewrite <- Hf0. unfold store. rewrite Hnone.
        destruct o; simpl in Hw; rewrite Hw; [done|by rewrite Hnone]. }
    rewrite Hrun in Hres. destruct o as [[]|e].
    + rewrite bind_run in Hres. unfold lift at 1 in Hres.
      rewrite (build_mapping_not_dict v Hv) in Hres.
      rewrite Hres. unfold store, same_session in *. simpl.
      destruct Hs1 as (?&?&?&?). by repeat split.
    + rewrite Hres. unfold store, same_session in *. simpl.
      destruct Hs1 as (?&?&?&?). by repeat split.
Qed.


(** ** The API interaction methods *)

(** C3, as amended: [semantic_search] hands its caller whatever the call
    gives: a transport error or a decoding error is raised to the caller,
    and any JSON body is returned as it is, whatever the status. *)
Theorem semantic_search_propagates query st :
  (semantic_search query st).1
  = match server (proc st) (search_request (self st) query) with
    | Failed e => Raise e
    | Replied r =>
        match resp_body r with
        | Json v => Return v
        | NotJson err => Raise (Exception JSONDecodeError err)
        end
    end.
Proof.
  unfold semantic_search. rewrite bind_run. unfold get_self at 1.
  rewrite bind_run. unfold send at 1. simpl.
  destruct (server (proc st) _) as [e|r]; [done|].
  unfold lift, json. by destruct (resp_body r).
Qed.

(** What [get_feed] returns, by cases on the reply. *)
Lemma get_feed_run st :
  (get_feed st).1
  = match server (proc st) (feed_request (self st)) with
    | Failed _ => Return (PyList [])
    | Replied r =>
        match resp_body r with
        | Json (PyDict d) => Return (default (PyList []) (d !! "posts"))
        | _ => Return (PyList [])
        end
    end.
Proof.
  unfold get_feed, try_except.
  rewrite bind_run. unfold get_self at 1.
  rewrite bind_run. unfold send at 1. simpl.
  destruct (server (proc st) _) as [e|r]; simpl; [done|].
  rewrite bind_run. unfold lift at 1, json.
  destruct (resp_body r) as [v|err]; simpl; [|done].
  by destruct v.
Qed.

(** C4: [get_feed] never raises, and when the call fails (no reply, a
    body that is not JSON, no [posts] field) it returns the empty list. *)
Theorem get_feed_degrades st :
  (∃ v, (get_feed st).1 = Return v)
  ∧ (feed_fails st → (get_feed st).1 = Return (PyList [])).
Proof.
  rewrite get_feed_run. unfold feed_fails.
  destruct (server (proc st) _) as [e|r]; [by eauto|].
  destruct (resp_body r) as [v|err]; [|by eauto].
  destruct v as [| | | | | |d]; try by eauto.
  split; [by eauto|]. by intros ->.
Qed.

(** Every method issues the request that bears its name. *)
Lemma methods_send_gateway_requests st :
  let c := self st in
  let logged (r : outcome pyval * state) rq :=
    sent (proc r.2) = sent (proc st) ++ [rq] in
  logged (get_feed st) (feed_request c)
  ∧ (∀ content, logged (post content st) (post_request c content))
  ∧ (∀ post_id content,
       logged (comment post_id content st) (comment_request c post_id content))
  ∧ (∀ post_id direction,
       logged (vote post_id direction st) (vote_request c post_id direction))
  ∧ (∀ n d, logged (create_submolt n d st) (create_submolt_request c n d))
  ∧ (∀ submolt_id,
       logged (subscribe submolt_id st) (subscribe_request c submolt_id))
  ∧ (∀ query, logged (semantic_search query st) (search_request c query)).
Proof.
  assert (∀ rq, let r := (c <- get_self ;; res <- send (rq c) ;; lift (json res)) st in
                sent (proc r.2) = sent (proc st) ++ [rq (self st)]) as Hsend.
  { intros rq. cbv zeta. rewrite bind_run. unfold get_self at 1.
    rewrite bind_run. unfold send at 1. simpl.
    destruct (server (proc st) _) as [e|r]; simpl; [done|].
    unfold lift. by destruct (json r). }
  cbv zeta. repeat split; intros.
  - unfold get_feed, try_except.
    rewrite bind_run. unfold get_self at 1.
    rewrite bind_run. unfold send at 1. simpl.
    destruct (server (proc st) _) as [e|r]; simpl; [done|].
    rewrite bind_run. unfold lift at 1.
    destruct (json r) as [v|e]; simpl; [|done].
    unfold lift. by destruct (get v "posts" (PyList [])).
  - apply (Hsend (λ c, post_request c content)).
  - apply (Hsend (λ c, comment_request c post_id content)).
  - apply (Hsend (λ c, vote_request c post_id direction)).
  - apply (Hsend (λ c, create_submolt_request c n d)).
  - apply (Hsend (λ c, subscribe_request c submolt_id)).
  - apply (Hsend (λ c, search_request c query)).
Qed.

(** C6: the headers carry [Authorization: Bearer <key>] exactly when the
    client has a non-empty API key; without one the headers are empty, so no
    request of any method carries an [Authorization] header. *)
Theorem authorization_iff_key c :
  (∀ h, _get_headers c !! "Authorization" = Some h
        ↔ ∃ k, api_key c = Some k ∧ k ≠ "" ∧ h = "Bearer " +:+ k)
  ∧ (api_key c = None ∨ api_key c = Some "" →
     _get_headers c = ∅
     ∧ ∀ rq, gateway_request c rq ∨ (∃ n d, rq = register_request c n d) →
             rq_headers rq !! "Authorization" = None).
Proof.
  split.
  - intros h. unfold _get_headers. destruct (api_key c) as [k|]; simpl.
    + destruct (String.eqb_spec k "") as [->|Hne]; simpl.
      * rewrite lookup_empty. split; [done|]. by intros (k & [= <-] & ? & _).
      * rewrite lookup_insert_eq. split.
        -- intros [= <-]. by exists k.
        -- by intros (k' & [= <-] & _ & ->).
    + rewrite lookup_empty. split; [done|]. by intros (k & ? & _).
  - intros Hkey.
    assert (_get_headers c = ∅) as Hempty.
    { unfold _get_headers. by destruct Hkey as [-> | ->]. }
    split; [done|]. intros rq [Hrq|(n & d & ->)].
    + by rewrite (gateway_request_headers _ _ Hrq), Hempty, lookup_empty.
    + simpl. by rewrite lookup_empty.
Qed.

(** ** The saved entries *)

Lemma elem_of_persisted mapping k s :
  (k, s) ∈ persisted mapping
  ↔ ∃ v, (k, v) ∈ mapping ∧ truthy v = true ∧ s = str v.
Proof.
  unfold persisted. rewrite list_elem_of_fmap. split.
  - intros ([k' v] & [= -> ->] & Hin).
    apply list_elem_of_In, filter_In in Hin as [Hin Hv].
    exists v. by rewrite list_elem_of_In.
  - intros (v & Hin & Hv & ->). exists (k, v). split; [done|].
    apply list_elem_of_In, filter_In. by rewrite <- list_elem_of_In.
Qed.

Lemma elem_of_mapping_of a k v :
  (k, v) ∈ mapping_of a
  ↔ ∃ field, (k, field) ∈ mapping_fields ∧ v = default PyNone (a !! field).
Proof.
  unfold mapping_of. rewrite list_elem_of_fmap. split.
  - intros ([k' field] & [= -> ->] & Hin). by exists field.
  - intros (field & Hin & ->). by exists (k, field).
Qed.

(** C5, as amended: the loop saves exactly the entries of the mapping
    whose value passes Python's truth test [if val:], each with the text
    [str(val)]; a field that is missing or null is never written, so the
    text None is never stored in its place. *)
Theorem saved_entries_are_the_truthy_ones a st :
  let mapping := mapping_of a in
  let r := save_mapping mapping st in
  build_mapping (PyDict a) mapping_fields = Return mapping
  ∧ (Forall (eq None) (write_faults (proc st)) →
     r.1 = Return tt
     ∧ store (proc r.2) = saved (persisted mapping) (store (proc st)))
  ∧ (∀ k s, (k, s) ∈ persisted mapping
            ↔ ∃ field v, (k, field) ∈ mapping_fields
                         ∧ a !! field = Some v ∧ truthy v = true ∧ s = str v)
  ∧ (∀ k field, (k, field) ∈ mapping_fields →
                a !! field = None ∨ a !! field = Some PyNone →
                entry_value k (persisted mapping) = None).
Proof.
  intros mapping r. split; [apply build_mapping_dict|]. split; [|split].
  - intros Hdisk.
    pose proof (save_mapping_no_fault mapping st Hdisk) as Hr.
    pose proof (save_mapping_spec mapping st) as (_ & _ & Hs).
    cbv zeta in Hs. fold r in Hr, Hs. by rewrite Hr in Hs.
  - intros k s. rewrite elem_of_persisted. split.
    + intros (v & (field & Hin & ->)%elem_of_mapping_of & Hv & ->).
      destruct (a !! field) as [v|] eqn:Hf; [|done]. by exists field, v.
    + intros (field & v & Hin & Hf & Hv & ->). exists v.
      split; [|done]. apply elem_of_mapping_of. exists field. by rewrite Hf.
  - intros k field Hin Hnone.
    assert (truthy (default PyNone (a !! field)) = false) as Hv
      by (by destruct Hnone as [-> | ->]).
    subst mapping. unfold persisted, mapping_of, mapping_fields in *. simpl.
    repeat (apply elem_of_cons in Hin as [Hin|Hin];
            [injection Hin as -> ->; rewrite Hv; simpl;
             repeat (match goal with |- context [truthy ?x] => destruct (truthy x) end; simpl);
             reflexivity|]).
    by apply elem_of_nil in Hin.
Qed.

(** ** The identity at construction *)

Lemma load_values_no_file override (env : gmap string string) :
  load_values override None env = env.
Proof. unfold load_values. simpl. apply map_fold_empty. Qed.

(** C8, as amended: with no credential file and no API key in the
    environment, the constructor yields a client without API key (so its
    headers are empty) and leaves the environment as it was; the id and the
    name are those of [MOLTBOOK_ID] and [MOLTBOOK_NAME] in the environment,
    hence absent and the default when these are not set either. *)
Theorem first_run_identity p :
  dotenv_file p = None →
  environ p !! "MOLTBOOK_API_KEY" = None →
  let c := (MoltbookClient p).1 in
  api_key c = None
  ∧ agent_id c = environ p !! "MOLTBOOK_ID"
  ∧ name c = default "Unknown Agent" (environ p !! "MOLTBOOK_NAME")
  ∧ _get_headers c = ∅
  ∧ environ (MoltbookClient p).2 = environ p.
Proof.
  intros Hfile Hkey. simpl. unfold _get_headers, getenv, getenv_default. simpl.
  rewrite Hfile, load_values_no_file, Hkey. done.
Qed.

(** The environment that [os.getenv] consults lacks a key exactly when the
    process did not have it and the file gives it no value. *)
Lemma loaded_key_absent p key :
  environ (MoltbookClient p).2 !! key = None
  ↔ environ p !! key = None
    ∧ (file_value key (store p) = None ∨ file_value key (store p) = Some None).
Proof.
  simpl. rewrite lookup_load_values. fold (store p).
  destruct (file_value key (store p)) as [[v|]|]; destruct (environ p !! key);
    intuition congruence.
Qed.

(** C9: when [MOLTBOOK_NAME] is absent from the environment, the name of
    the client is the text Unknown Agent, which is what the banner of the
    menu shows. *)
Theorem default_display_name p :
  environ (MoltbookClient p).2 !! "MOLTBOOK_NAME" = None →
  let c := (MoltbookClient p).1 in
  name c = "Unknown Agent"
  ∧ name c ≠ ""
  ∧ banner c = nl +:+ rule +:+ nl +:+ "  MOLTBOOK: Unknown Agent" +:+ nl +:+ rule.
Proof.
  intros Habsent. simpl in *. unfold banner, getenv_default. simpl.
  by rewrite Habsent.
Qed.

(** ** The feed view *)

Lemma all_digits_string_of_uint d :
  all_digits (NilEmpty.string_of_uint d) = true.
Proof. induction d; simpl; done. Qed.

Lemma to_uint_nonnil i : Nat.to_uint i ≠ Decimal.Nil.
Proof.
  rewrite <- (Unsigned.of_to i) at 1. rewrite Unsigned.to_of.
  apply DecimalFacts.unorm_nonnil.
Qed.

Lemma isdigit_str_nat i : isdigit (str_nat i) = true.
Proof.
  unfold isdigit, str_nat, NilZero.string_of_uint.
  pose proof (to_uint_nonnil i) as Hnil.
  pose proof (all_digits_string_of_uint (Nat.to_uint i)) as Hd.
  destruct (Nat.to_uint i); simpl in *; done.
Qed.

Lemma int_str_nat i : int (str_nat i) = i.
Proof.
  unfold int, str_nat.
  rewrite NilZero.usu by apply to_uint_nonnil.
  apply Unsigned.of_to.
Qed.

Lemma in_range_str_nat i l :
  0 < i ≤ length l → in_range (str_nat i) (PyList l) = Return true.
Proof.
  intros [Hpos Hle]. unfold in_range. rewrite isdigit_str_nat, int_str_nat. simpl.
  destruct (Nat.ltb_spec 0 i); [|lia]. simpl.
  destruct (Nat.leb_spec i (length l)); [done|lia].
Qed.

(** ** Relations kept by the building blocks *)

Section Keeps.

Context (R : state → state → Prop) `{!Reflexive R} `{!Transitive R}.

Lemma keeps_ret {A} (a : A) : keeps R (ret a).
Proof. intros st. simpl. reflexivity. Qed.

Lemma keeps_lift {A} (o : outcome A) : keeps R (lift o).
Proof. intros st. simpl. reflexivity. Qed.

Lemma keeps_get_self : keeps R get_self.
Proof. intros st. simpl. reflexivity. Qed.

Lemma keeps_bind {A B} (m : M A) (k : A → M B) :
  keeps R m → (∀ a, keeps R (k a)) → keeps R (bind m k).
Proof.
  intros Hm Hk st. rewrite bind_run. specialize (Hm st).
  destruct (m st) as [[a|e] st1]; simpl in *; [|done].
  etransitivity; [exact Hm|apply Hk].
Qed.

Lemma keeps_try_except {A} (body : M A) (handler : exn → M A) :
  keeps R body → (∀ e, keeps R (handler e)) → keeps R (try_except body handler).
Proof.
  intros Hb Hh st. unfold try_except. specialize (Hb st).
  destruct (body st) as [[a|e] st1]; simpl in *; [done|].
  etransitivity; [exact Hb|apply Hh].
Qed.

Lemma keeps_for_each {A} (l : list A) (body : A → M unit) :
  (∀ x, keeps R (body x)) → keeps R (for_each l body).
Proof.
  intros Hbody. induction l as [|x l IH]; simpl.
  - apply keeps_ret.
  - apply keeps_bind; [apply Hbody|]. intros _. exact IH.
Qed.

End Keeps.

(** Steps through a computation built from the blocks above; [prim] is
    tried first, for the primitive steps. *)
Ltac keeps_with prim :=
  repeat first
    [ prim
    | apply keeps_ret; apply _
    | apply keeps_lift; apply _
    | apply keeps_get_self; apply _
    | apply keeps_bind; [apply _| |intros ?]
    | apply keeps_for_each; [apply _|apply _|intros ?]
    | apply keeps_try_except; [apply _| |intros ?]
    | match goal with
      | |- keeps _ (if ?b then _ else _) => destruct b
      end ].

Global Instance same_log_refl : Reflexive same_log.
Proof. by intros st. Qed.

Global Instance same_log_trans : Transitive same_log.
Proof. unfold same_log. intros st1 st2 st3 H1 H2. congruence. Qed.

Global Instance local_untouched_refl : Reflexive local_untouched.
Proof. by intros st. Qed.

Global Instance local_untouched_trans : Transitive local_untouched.
Proof.
  intros st1 st2 st3 (?&?&?&?&?&?) (?&?&?&?&?&?).
  repeat split; congruence.
Qed.

Global Instance consumes_refl : Reflexive consumes.
Proof. intros st. unfold consumes. reflexivity. Qed.

Global Instance consumes_trans : Transitive consumes.
Proof. unfold consumes. intros st1 st2 st3 H1 H2. by etransitivity. Qed.

Global Instance keys_kept_refl : Reflexive keys_kept.
Proof. intros st. unfold keys_kept. reflexivity. Qed.

Global Instance keys_kept_trans : Transitive keys_kept.
Proof. unfold keys_kept. intros st1 st2 st3 H1 H2. by etransitivity. Qed.

(** *** Printing, reading and sending *)

Lemma print_keeps_local s : keeps local_untouched (print s).
Proof. intros st. by repeat split. Qed.

Lemma print_keeps_log s : keeps same_log (print s).
Proof. by intros st. Qed.

Lemma print_consumes s : keeps consumes (print s).
Proof. intros st. unfold consumes. simpl. reflexivity. Qed.

Lemma print_keeps_keys s : keeps keys_kept (print s).
Proof. intros st. unfold keys_kept. simpl. reflexivity. Qed.

Lemma input_keeps_local prompt : keeps local_untouched (input prompt).
Proof.
  intros st. unfold input. rewrite bind_run. simpl.
  destruct (stdin (proc st)); by repeat split.
Qed.

Lemma input_keeps_log prompt : keeps same_log (input prompt).
Proof.
  intros st. unfold input. rewrite bind_run. simpl.
  by destruct (stdin (proc st)).
Qed.

Lemma input_consumes prompt : keeps consumes (input prompt).
Proof.
  intros st. unfold input, consumes. rewrite bind_run. simpl.
  destruct (stdin (proc st)) as [|line rest] eqn:Hin; simpl.
  - by rewrite Hin.
  - by apply suffix_cons_r.
Qed.

Lemma send_keeps_local rq : keeps local_untouched (send rq).
Proof.
  intros st. unfold send. destruct (server (proc st) rq); by repeat split.
Qed.

Lemma send_consumes rq : keeps consumes (send rq).
Proof.
  intros st. unfold send, consumes.
  destruct (server (proc st) rq); simpl; reflexivity.
Qed.

Lemma send_keeps_keys rq : keeps keys_kept (send rq).
Proof.
  intros st. unfold send, keys_kept.
  destruct (server (proc st) rq); simpl; reflexivity.
Qed.

(** ** More on the API interaction methods *)

(** The shape shared by the methods without [try]. *)
Lemma plain_call_run (rq : client → request) st :
  (c <- get_self ;; res <- send (rq c) ;; lift (json res)) st
  = (passed_on (server (proc st) (rq (self st))),
     with_proc (log_request (rq (self st))) st).
Proof.
  rewrite bind_run. unfold get_self at 1.
  rewrite bind_run. unfold send at 1, passed_on.
  by destruct (server (proc st) _).
Qed.

(** X1: [post], [comment], [vote], [create_submolt] and [subscribe] check
    no status and catch nothing: a transport error or a decoding error is
    raised to the caller, any JSON body is returned as it is. *)
Theorem write_calls_pass_the_reply_on st :
  let c := self st in
  let srv := server (proc st) in
  (∀ content, (post content st).1 = passed_on (srv (post_request c content)))
  ∧ (∀ post_id content,
       (comment post_id content st).1
       = passed_on (srv (comment_request c post_id content)))
  ∧ (∀ post_id direction,
       (vote post_id direction st).1
       = passed_on (srv (vote_request c post_id direction)))
  ∧ (∀ n d,
       (create_submolt n d st).1 = passed_on (srv (create_submolt_request c n d)))
  ∧ (∀ submolt_id,
       (subscribe submolt_id st).1
       = passed_on (srv (subscribe_request c submolt_id))).
Proof.
  cbv zeta. repeat split; intros.
  - unfold post. by rewrite (plain_call_run (λ c, post_request c content)).
  - unfold comment.
    by rewrite (plain_call_run (λ c, comment_request c post_id content)).
  - unfold vote.
    by rewrite (plain_call_run (λ c, vote_request c post_id direction)).
  - unfold create_submolt.
    by rewrite (plain_call_run (λ c, create_submolt_request c n d)).
  - unfold subscribe.
    by rewrite (plain_call_run (λ c, subscribe_request c submolt_id)).
Qed.

Lemma get_feed_state st :
  (get_feed st).2 = with_proc (log_request (feed_request (self st))) st.
Proof.
  unfold get_feed, try_except.
  rewrite bind_run. unfold get_self at 1.
  rewrite bind_run. unfold send at 1.
  destruct (server (proc st) _) as [e|r]; [done|].
  rewrite bind_run. unfold lift at 1.
  destruct (json r) as [v|e]; [|done].
  unfold lift. by destruct (get v "posts" (PyList [])).
Qed.

(** X2: each of the seven API methods issues exactly one request, the one
    built from its arguments, and changes nothing else: not the client, the
    environment, the credential file, the input or the output, whether
    the call succeeds or fails. *)
Theorem api_methods_only_issue_their_request st :
  let c := self st in
  let after rq := with_proc (log_request rq) st in
  (get_feed st).2 = after (feed_request c)
  ∧ (∀ content, (post content st).2 = after (post_request c content))
  ∧ (∀ post_id content,
       (comment post_id content st).2 = after (comment_request c post_id content))
  ∧ (∀ post_id direction,
       (vote post_id direction st).2 = after (vote_request c post_id direction))
  ∧ (∀ n d, (create_submolt n d st).2 = after (create_submolt_request c n d))
  ∧ (∀ submolt_id,
       (subscribe submolt_id st).2 = after (subscribe_request c submolt_id))
  ∧ (∀ query, (semantic_search query st).2 = after (search_request c query)).
Proof.
  cbv zeta. split; [apply get_feed_state|]. repeat split; intros.
  - unfold post. by rewrite (plain_call_run (λ c, post_request c content)).
  - unfold comment.
    by rewrite (plain_call_run (λ c, comment_request c post_id content)).
  - unfold vote.
    by rewrite (plain_call_run (λ c, vote_request c post_id direction)).
  - unfold create_submolt.
    by rewrite (plain_call_run (λ c, create_submolt_request c n d)).
  - unfold subscribe.
    by rewrite (plain_call_run (λ c, subscribe_request c submolt_id)).
  - unfold semantic_search.
    by rewrite (plain_call_run (λ c, search_request c query)).
Qed.

(** X3: [get_feed] looks at no status: whenever the body is a JSON object
    with a [posts] field, the value of that field is returned, be it a
    list or not and be the status an error or not. *)
Theorem get_feed_returns_posts_whatever_the_status st r d v :
  server (proc st) (feed_request (self st)) = Replied r →
  resp_body r = Json (PyDict d) →
  d !! "posts" = Some v →
  (get_feed st).1 = Return v.
Proof.
  intros Hsrv Hbody Hposts. rewrite get_feed_run, Hsrv, Hbody, Hposts. done.
Qed.

(** ** More on the constructor *)

(** X4: at construction each field comes from the process environment when
    the variable is set there, and only otherwise from the [.env] file: a
    variable exported in the shell shadows the saved one. *)
Theorem environment_shadows_file p :
  let c := (MoltbookClient p).1 in
  let from_file key :=
    match file_value key (store p) with Some (Some v) => Some v | _ => None end in
  let found key :=
    match environ p !! key with Some e => Some e | None => from_file key end in
  api_key c = found "MOLTBOOK_API_KEY"
  ∧ agent_id c = found "MOLTBOOK_ID"
  ∧ name c = default "Unknown Agent" (found "MOLTBOOK_NAME").
Proof.
  simpl. unfold getenv, getenv_default. simpl.
  rewrite !lookup_load_values. fold (store p).
  repeat split.
  - destruct (file_value "MOLTBOOK_API_KEY" (store p)) as [[v|]|];
      by destruct (environ p !! "MOLTBOOK_API_KEY").
  - destruct (file_value "MOLTBOOK_ID" (store p)) as [[v|]|];
      by destruct (environ p !! "MOLTBOOK_ID").
  - destruct (file_value "MOLTBOOK_NAME" (store p)) as [[v|]|];
      by destruct (environ p !! "MOLTBOOK_NAME").
Qed.

Lemma load_values_twice override file (env : gmap string string) :
  load_values false file (load_values override file env)
  = load_values override file env.
Proof.
  apply map_eq. intros k. rewrite !lookup_load_values.
  destruct (file_value k (default [] file)) as [[v|]|]; [|done..].
  destruct override; [done|]. by destruct (env !! k).
Qed.

(** X5: constructing the client a second time, the file being the same,
    gives the same client and leaves the environment as the first
    construction left it. *)
Theorem construction_is_idempotent p :
  MoltbookClient (MoltbookClient p).2 = MoltbookClient p.
Proof.
  unfold MoltbookClient, __init__. simpl.
  unfold load_dotenv, getenv, getenv_default. simpl.
  by rewrite !load_values_twice.
Qed.

(** ** More on registration *)

Lemma write_file_keeps_log update : keeps same_log (write_file update).
Proof.
  intros st. unfold write_file, same_log.
  by destruct (write_faults (proc st)) as [|[e|] rest].
Qed.

Lemma path_exists_keeps R `{!Reflexive R} : keeps R path_exists.
Proof. intros st. simpl. reflexivity. Qed.

Lemma load_dotenv_override_keeps_log : keeps same_log load_dotenv_override.
Proof. by intros st. Qed.

Lemma reinit_keeps_log : keeps same_log reinit.
Proof. by intros st. Qed.

(** What follows the request in [register] issues no other request. *)
Lemma after_the_request_nothing_is_sent (r : response) :
  keeps same_log
    (lift (raise_for_status r) ;;
     data <- lift (json r) ;;
     agent_data <- lift (get data "agent" (PyDict ∅)) ;;
     if negb (truthy agent_data) then
       print "❌ Error: No agent data found in response." ;;
       ret false
     else
       ex <- path_exists ;;
       (if negb ex then create_empty else ret tt) ;;
       mapping <- lift (build_mapping agent_data mapping_fields) ;;
       save_mapping mapping ;;
       print "✅ Registration saved to .env!" ;;
       claim_url <- lift (get agent_data "claim_url" PyNone) ;;
       print ("🔗 CLAIM URL: " +:+ str claim_url) ;;
       load_dotenv_override ;;
       reinit ;;
       ret true).
Proof.
  unfold save_mapping, set_key, create_empty.
  keeps_with
    ltac:(first [ apply print_keeps_log | apply write_file_keeps_log
                | apply path_exists_keeps; apply _
                | apply load_dotenv_override_keeps_log
                | apply reinit_keeps_log ]).
Qed.

(** X6: whatever the outcome, [register] issues exactly one request, the
    registration request; it bears no header and a timeout of 15 seconds,
    also when the client already has a key. *)
Theorem register_issues_one_bare_request agent_name description st :
  let rq := register_request (self st) agent_name description in
  sent (proc (register agent_name description st).2) = sent (proc st) ++ [rq]
  ∧ rq_headers rq = ∅
  ∧ rq_timeout rq = Some 15%Z.
Proof.
  intros rq. split; [|done].
  remember (register agent_name description st) as res eqn:Hres.
  unfold register in Hres. rewrite bind_run in Hres. unfold print at 1 in Hres.
  unfold try_except, register_try in Hres.
  rewrite bind_run in Hres. unfold get_self at 1 in Hres. simpl self in Hres.
  rewrite bind_run in Hres. unfold send at 1 in Hres.
  simpl proc in Hres. simpl server in Hres. fold rq in Hres.
  destruct (server (proc st) rq) as [e|r]; [by rewrite Hres|].
  set (st1 := with_proc (log_request rq) _) in Hres.
  pose proof (after_the_request_nothing_is_sent r st1) as Hk.
  unfold same_log in Hk.
  match type of Hres with
  | res = (let (_, _) := ?run in _) => destruct run as [[b|e] st2]
  end; simpl in Hk; rewrite Hres; simpl; by rewrite Hk.
Qed.

(** Every attempt either fails before the save loop or has a non-empty
    [agent] record to save. *)
Lemma register_cases agent_name description st :
  fails_before_saving st agent_name description
  ∨ ∃ r data a,
      server (proc st) (register_request (self st) agent_name description)
        = Replied r
      ∧ raise_for_status r = Return tt
      ∧ resp_body r = Json data
      ∧ get data "agent" (PyDict ∅) = Return (PyDict a)
      ∧ truthy (PyDict a) = true.
Proof.
  destruct (server (proc st) (register_request (self st) agent_name description))
    as [e|r] eqn:Hsrv; [left; by eapply transport_failure|].
  destruct (raise_for_status r) as [[]|e] eqn:Hstatus;
    [|left; by eapply error_status].
  destruct (resp_body r) as [data|err] eqn:Hbody;
    [|left; by eapply parse_failure].
  destruct (get data "agent" (PyDict ∅)) as [v|e] eqn:Hget.
  - destruct (truthy v) eqn:Hv.
    + destruct v as [| | | | | |a];
        try (left; eapply agent_not_a_record; [done..|by intros a']).
      right. by exists r, data, a.
    + left. eapply no_agent_data; [done..|].
      destruct data as [| | | | | |d0]; try done.
      simpl in *. injection Hget as <-.
      destruct (d0 !! "agent"); [done|]. simpl. done.
  - left. eapply no_agent_data; [done..|]. by destruct data.
Qed.


Lemma rewrite_key_present key value f :
  existsb (λ b, String.eqb b.1 key) f = true →
  (rewrite_key key value f).*1 = f.*1.
Proof.
  unfold rewrite_key. intros ->. clear.
  induction f as [|b f IH]; [done|]. simpl. f_equal; [|exact IH].
  by destruct (String.eqb_spec b.1 key).
Qed.

Lemma rewrite_key_absent key value f :
  existsb (λ b, String.eqb b.1 key) f = false →
  (rewrite_key key value f).*1 = f.*1 ++ [key].
Proof. unfold rewrite_key. intros ->. by rewrite fmap_app. Qed.

Lemma rewrite_key_keys key value f :
  f.*1 `prefix_of` (rewrite_key key value f).*1.
Proof.
  destruct (existsb (λ b, String.eqb b.1 key) f) eqn:Hex.
  - by rewrite rewrite_key_present.
  - rewrite rewrite_key_absent by done. by apply prefix_app_r.
Qed.

Lemma saved_keys entries f : f.*1 `prefix_of` (saved entries f).*1.
Proof.
  revert f. induction entries as [|e entries IH]; intros f; [done|].
  unfold saved in *. simpl. etransitivity; [apply rewrite_key_keys|apply IH].
Qed.

(** X7: [register] never raises, and whatever its outcome it removes no
    key from the credential file nor moves one: the keys there were are
    still there in their order, new ones added after them. *)
Theorem register_keeps_the_keys_of_the_file agent_name description st :
  let res := register agent_name description st in
  (∃ b, res.1 = Return b)
  ∧ (store (proc st)).*1 `prefix_of` (store (proc res.2)).*1.
Proof.
  intros res.
  destruct (register_returns agent_name description st) as (b & st' & Hb).
  split; [exists b; subst res; by rewrite Hb|].
  destruct (register_cases agent_name description st)
    as [Hearly|(r & data & a & Hsrv & Hstatus & Hbody & Hget & Ha)].
  - destruct (register_fails_early agent_name description st Hearly)
      as (_ & Hstore & _). fold res in Hstore. by rewrite Hstore.
  - pose proof (register_with_agent agent_name description st r data a
                  Hsrv Hstatus Hbody Hget Ha) as Hrun.
    cbv zeta in Hrun. fold res in Hrun.
    destruct res.1 as [[]|e]; [| |done].
    + destruct Hrun as (_ & -> & _). apply saved_keys.
    + destruct Hrun as (_ & n & _ & ->). apply saved_keys.
Qed.



(** X9: an [agent] that is not a record (a text, a number, a list) passes
    the emptiness test and fails only at the first field lookup, after the
    [.env] file has been created: [register] returns [False] and leaves an
    empty file where there was none. *)
Theorem failed_registration_can_leave_an_empty_file
    agent_name description st r data v :
  server (proc st) (register_request (self st) agent_name description)
    = Replied r →
  raise_for_status r = Return tt →
  resp_body r = Json data →
  get data "agent" (PyDict ∅) = Return v →
  truthy v = true →
  (∀ a, v ≠ PyDict a) →
  dotenv_file (proc st) = None →
  (∀ e, head (write_faults (proc st)) ≠ Some (Some e)) →
  let res := register agent_name description st in
  res.1 = Return false ∧ dotenv_file (proc res.2) = Some [].
Proof.
  intros Hsrv Hstatus Hbody Hget Hv Hnot Hfile Hdisk res.
  assert (res = register agent_name description st) as Hres by reflexivity.
  clearbody res.
  unfold register in Hres. rewrite bind_run in Hres. unfold print at 1 in Hres.
  unfold try_except, register_try in Hres.
  rewrite bind_run in Hres. unfold get_self at 1 in Hres. simpl self in Hres.
  rewrite bind_run in Hres. unfold send at 1 in Hres.
  simpl proc in Hres. simpl server in Hres. rewrite Hsrv in Hres.
  rewrite bind_run in Hres. unfold lift at 1 in Hres. rewrite Hstatus in Hres.
  rewrite bind_run in Hres. unfold lift at 1, json in Hres. rewrite Hbody in Hres.
  rewrite bind_run in Hres. unfold lift at 1 in Hres. rewrite Hget, Hv in Hres.
  change (negb true) with false in Hres. cbv iota in Hres.
  rewrite bind_run in Hres. unfold path_exists at 1 in Hres.
  cbv beta iota in Hres. simpl dotenv_file in Hres. rewrite Hfile in Hres.
  rewrite bool_decide_eq_false_2 in Hres by (by intros [? ?]).
  change (negb false) with true in Hres. cbv iota in Hres.
  rewrite bind_run in Hres. unfold create_empty, write_file in Hres.
  simpl write_faults in Hres. simpl dotenv_file in Hres.
  destruct (write_faults (proc st)) as [|[e|] rest] eqn:Hfaults.
  - rewrite bind_run in Hres. unfold lift at 1 in Hres.
    rewrite (build_mapping_not_dict v Hnot) in Hres. by rewrite Hres.
  - by destruct (Hdisk e).
  - rewrite bind_run in Hres. unfold lift at 1 in Hres.
    rewrite (build_mapping_not_dict v Hnot) in Hres. by rewrite Hres.
Qed.



(** ** The menu *)

Lemma print_run s st : print s st = (Return tt, printed s st).
Proof. reflexivity. Qed.

Lemma input_run prompt line rest st :
  stdin (proc st) = line :: rest →
  input prompt st = (Return line, read_up_to rest (printed prompt st)).
Proof.
  intros Hin. unfold input. rewrite bind_run, print_run. simpl. by rewrite Hin.
Qed.

Lemma input_at_end prompt st :
  stdin (proc st) = [] →
  input prompt st
  = (Raise (Exception EOFError "EOF when reading a line"), printed prompt st).
Proof.
  intros Hin. unfold input. rewrite bind_run, print_run. simpl. by rewrite Hin.
Qed.

(** X12: when the feed is empty or could not be fetched, the view says so
    and comes back at once: one request issued, one line printed, nothing
    read from the user. *)
Theorem empty_feed_is_reported_without_a_prompt st v :
  (get_feed st).1 = Return v →
  truthy v = false →
  view_feed st
  = (Return tt,
     printed "Feed is empty. Ensure your agent is 'claimed'."
       (requested (feed_request (self st)) st)).
Proof.
  intros Hfeed Hv. unfold view_feed. rewrite bind_run.
  pose proof (get_feed_state st) as Hst.
  destruct (get_feed st) as [o st1]. simpl in *. subst o st1.
  by rewrite Hv.
Qed.

(** X13: a post without [author], or whose author has no [name], is
    listed under the name Unknown; a post without [content] shows None. *)
Theorem missing_author_is_listed_as_Unknown i d st :
  d !! "author" = None
  ∨ (∃ a, d !! "author" = Some (PyDict a) ∧ a !! "name" = None) →
  show_post (i, PyDict d) st
  = (Return tt,
     printed (str_nat (i + 1) +:+ ". [Unknown]: "
                +:+ str (default PyNone (d !! "content"))) st).
Proof.
  intros Hauthor. unfold show_post. simpl.
  rewrite bind_run. unfold lift at 1.
  destruct Hauthor as [-> | (a & -> & Hname)]; simpl.
  - rewrite bind_run. unfold lift at 1. rewrite lookup_empty. simpl.
    rewrite bind_run. unfold lift at 1. by rewrite print_run.
  - rewrite bind_run. unfold lift at 1. rewrite Hname. simpl.
    rewrite bind_run. unfold lift at 1. by rewrite print_run.
Qed.


(** The selection of post [i] in a feed and the typed answer [action]. *)
Lemma selection_run l i target action rest st :
  0 < i ≤ length l →
  l !! (i - 1) = Some target →
  stdin (proc st) = str_nat i :: action :: rest →
  reply_or_vote (PyList l) st
  = (if String.eqb (lower action) "r" then
       post_id <- lift (getitem target "id") ;;
       message <- input "Message: " ;;
       comment post_id message ;;
       print "✅ Reply sent!"
     else if String.eqb (lower action) "v" then
       post_id <- lift (getitem target "id") ;;
       vote post_id "up" ;;
       print "✅ Upvoted!"
     else ret tt)
      (read_up_to rest
         (printed "(r)eply or (v)ote? "
            (read_up_to (action :: rest) (printed selection_prompt st)))).
Proof.
  intros Hi Htarget Hin. unfold reply_or_vote.
  rewrite bind_run. fold selection_prompt.
  rewrite (input_run selection_prompt (str_nat i) (action :: rest) st Hin).
  rewrite bind_run. unfold lift at 1. rewrite (in_range_str_nat i l Hi).
  rewrite bind_run. unfold lift at 1. rewrite int_str_nat. simpl item.
  rewrite Htarget.
  rewrite bind_run.
  by erewrite input_run by reflexivity.
Qed.

(** X15: the answer r, in either case, followed by a message sends that
    message as a comment on the selected post, the one at position
    [i - 1] of the feed. *)
Theorem reply_goes_to_the_selected_post l i d post_id action message rest st :
  0 < i ≤ length l →
  l !! (i - 1) = Some (PyDict d) →
  d !! "id" = Some post_id →
  stdin (proc st) = str_nat i :: action :: message :: rest →
  lower action = "r" →
  let res := reply_or_vote (PyList l) st in
  sent (proc res.2)
  = sent (proc st) ++ [comment_request (self st) post_id message]
  ∧ stdin (proc res.2) = rest.
Proof.
  intros Hi Htarget Hid Hin Hr res.
  assert (res = reply_or_vote (PyList l) st) as Hres by reflexivity.
  clearbody res.
  rewrite (selection_run l i (PyDict d) action (message :: rest) st Hi Htarget Hin)
    in Hres.
  rewrite Hr, String.eqb_refl in Hres.
  rewrite bind_run in Hres. unfold lift at 1 in Hres.
  simpl getitem in Hres. rewrite Hid in Hres.
  rewrite bind_run in Hres.
  erewrite input_run in Hres by reflexivity.
  rewrite bind_run in Hres. unfold comment in Hres.
  rewrite (plain_call_run (λ c, comment_request c post_id message)) in Hres.
  simpl in Hres.
  destruct (passed_on _); by rewrite Hres.
Qed.

(** X16: any answer other than r or v, in either case, sends nothing. *)
Theorem other_answers_send_nothing l i target action rest st :
  0 < i ≤ length l →
  l !! (i - 1) = Some target →
  stdin (proc st) = str_nat i :: action :: rest →
  lower action ≠ "r" → lower action ≠ "v" →
  let res := reply_or_vote (PyList l) st in
  res.1 = Return tt
  ∧ sent (proc res.2) = sent (proc st)
  ∧ stdin (proc res.2) = rest.
Proof.
  intros Hi Htarget Hin Hr Hv res.
  assert (res = reply_or_vote (PyList l) st) as Hres by reflexivity.
  clearbody res.
  rewrite (selection_run l i target action rest st Hi Htarget Hin) in Hres.
  destruct (String.eqb_spec (lower action) "r"); [done|].
  destruct (String.eqb_spec (lower action) "v"); [done|].
  by rewrite Hres.
Qed.

(** X17: a selected post that has no [id] makes the reply and the vote
    raise a [KeyError] before anything is sent. *)
Theorem post_without_id_raises_KeyError l i d action rest st :
  0 < i ≤ length l →
  l !! (i - 1) = Some (PyDict d) →
  d !! "id" = None →
  stdin (proc st) = str_nat i :: action :: rest →
  lower action = "r" ∨ lower action = "v" →
  let res := reply_or_vote (PyList l) st in
  res.1 = Raise (Exception KeyError "'id'")
  ∧ sent (proc res.2) = sent (proc st).
Proof.
  intros Hi Htarget Hid Hin Hact res.
  assert (res = reply_or_vote (PyList l) st) as Hres by reflexivity.
  clearbody res.
  rewrite (selection_run l i (PyDict d) action rest st Hi Htarget Hin) in Hres.
  destruct Hact as [Hact | Hact]; rewrite Hact in Hres.
  - rewrite String.eqb_refl in Hres.
    rewrite bind_run in Hres. unfold lift at 1 in Hres.
    simpl getitem in Hres. rewrite Hid in Hres. by rewrite Hres.
  - change (String.eqb "v" "r") with false in Hres.
    rewrite String.eqb_refl in Hres.
    rewrite bind_run in Hres. unfold lift at 1 in Hres.
    simpl getitem in Hres. rewrite Hid in Hres. by rewrite Hres.
Qed.

(** *** The loop *)

Ltac unfold_menu :=
  unfold menu_round, dispatch, view_feed, reply_or_vote, show_post, new_post,
    search, show_result, new_submolt, join_submolt, get_feed, post, comment,
    vote, create_submolt, subscribe, semantic_search.

Lemma menu_round_keeps_local : keeps local_untouched menu_round.
Proof.
  unfold_menu.
  keeps_with
    ltac:(first [ apply print_keeps_local | apply input_keeps_local
                | apply send_keeps_local ]).
Qed.

Lemma dispatch_consumes choice : keeps consumes (dispatch choice).
Proof.
  unfold_menu.
  keeps_with
    ltac:(first [ apply print_consumes | apply input_consumes
                | apply send_consumes ]).
Qed.

Lemma menu_lines_run st :
  for_each menu_lines print st
  = (Return tt, foldl (λ s line, printed line s) st menu_lines).
Proof. reflexivity. Qed.

Lemma menu_round_run choice rest st :
  stdin (proc st) = choice :: rest →
  menu_round st
  = dispatch choice (read_up_to rest (printed choice_prompt (menu_shown st))).
Proof.
  intros Hin. unfold menu_round.
  rewrite bind_run. unfold get_self at 1.
  rewrite bind_run, print_run.
  rewrite bind_run, menu_lines_run. fold (menu_shown st).
  rewrite bind_run. fold choice_prompt.
  by erewrite input_run by exact Hin.
Qed.

Lemma menu_round_at_end st :
  stdin (proc st) = [] →
  menu_round st
  = (Raise (Exception EOFError "EOF when reading a line"),
     printed choice_prompt (menu_shown st)).
Proof.
  intros Hin. unfold menu_round.
  rewrite bind_run. unfold get_self at 1.
  rewrite bind_run, print_run.
  rewrite bind_run, menu_lines_run. fold (menu_shown st).
  rewrite bind_run. fold choice_prompt.
  by erewrite input_at_end by exact Hin.
Qed.

(** X18: the loop and all its branches leave the client object, the
    environment, the credential file and the disk alone, however many
    rounds are played and however they end. *)
Theorem menu_never_touches_the_credentials fuel st :
  let st' := (menu_loop fuel st).2 in
  self st' = self st
  ∧ environ (proc st') = environ (proc st)
  ∧ dotenv_file (proc st') = dotenv_file (proc st)
  ∧ write_faults (proc st') = write_faults (proc st).
Proof.
  assert (keeps local_untouched (menu_loop fuel)) as Hk.
  { induction fuel as [|fuel IH]; simpl.
    - apply keeps_ret. apply _.
    - apply keeps_bind; [apply _|apply menu_round_keeps_local|].
      intros []; [exact IH|apply keeps_ret; apply _]. }
  destruct (Hk st) as (?&?&?&?&?&?). done.
Qed.

(** A step that goes on to [ret true] never returns [False]. *)
Lemma branch_goes_on (m : M unit) st : (bind m (λ _, ret true) st).1 ≠ Return false.
Proof. rewrite bind_run. by destruct (m st) as [[[]|e] st1]. Qed.

(** X19: a round ends the loop in an orderly way exactly when the typed
    choice is 6; every other round goes on or is left by an exception. *)
Theorem only_choice_six_breaks_the_loop st :
  (menu_round st).1 = Return false ↔ ∃ rest, stdin (proc st) = "6" :: rest.
Proof.
  split.
  - destruct (stdin (proc st)) as [|choice rest] eqn:Hin.
    + by rewrite (menu_round_at_end st Hin).
    + rewrite (menu_round_run choice rest st Hin). unfold dispatch.
      destruct (String.eqb choice "1"); [by intros ?%branch_goes_on|].
      destruct (String.eqb choice "2"); [by intros ?%branch_goes_on|].
      destruct (String.eqb choice "3"); [by intros ?%branch_goes_on|].
      destruct (String.eqb choice "4"); [by intros ?%branch_goes_on|].
      destruct (String.eqb choice "5"); [by intros ?%branch_goes_on|].
      destruct (String.eqb_spec choice "6") as [->|]; [|done].
      intros _. by exists rest.
  - intros [rest Hin]. by rewrite (menu_round_run "6" rest st Hin).
Qed.

Lemma menu_round_uses_a_line st b :
  (menu_round st).1 = Return b →
  length (stdin (proc (menu_round st).2)) < length (stdin (proc st)).
Proof.
  destruct (stdin (proc st)) as [|choice rest] eqn:Hin.
  - by rewrite (menu_round_at_end st Hin).
  - rewrite (menu_round_run choice rest st Hin). intros _.
    pose proof (dispatch_consumes choice
                  (read_up_to rest (printed choice_prompt (menu_shown st)))) as Hs.
    unfold consumes in Hs. simpl in Hs. apply suffix_length in Hs.
    simpl. lia.
Qed.

Lemma menu_loop_ends fuel st :
  length (stdin (proc st)) < fuel →
  (menu_loop fuel st).1 ≠ Return OutOfFuel.
Proof.
  revert st. induction fuel as [|fuel IH]; intros st Hlen; [lia|].
  simpl. rewrite bind_run.
  pose proof (menu_round_uses_a_line st) as Hline.
  destruct (menu_round st) as [[[]|e] st1]; simpl in *; [|done..].
  apply IH. specialize (Hline true eq_refl). lia.
Qed.

Lemma write_file_consumes update : keeps consumes (write_file update).
Proof.
  intros st. unfold write_file, consumes.
  destruct (write_faults (proc st)) as [|[e|] rest]; simpl; reflexivity.
Qed.

Lemma load_dotenv_override_consumes : keeps consumes load_dotenv_override.
Proof. intros st. unfold consumes. simpl. reflexivity. Qed.

Lemma reinit_consumes : keeps consumes reinit.
Proof. intros st. unfold consumes. simpl. reflexivity. Qed.

Lemma first_run_consumes : keeps consumes first_run.
Proof.
  unfold first_run, register, register_try, save_mapping, set_key, create_empty.
  keeps_with
    ltac:(first [ apply print_consumes | apply input_consumes
                | apply send_consumes | apply write_file_consumes
                | apply path_exists_keeps; apply _
                | apply load_dotenv_override_consumes
                | apply reinit_consumes ]).
Qed.

(** X20: the program comes to an end on any finite input: given more
    rounds than there are typed lines, [run_menu] never uses them up; it
    finishes (choice 6, or a failed registration) or is left by an
    exception, such as the end of the input. *)
Theorem run_menu_ends_on_finite_input fuel p :
  length (stdin p) < fuel →
  (run_menu fuel p).1 ≠ Return OutOfFuel.
Proof.
  intros Hlen. unfold run_menu. rewrite bind_run.
  pose proof (first_run_consumes (boot p)) as Hs.
  unfold consumes in Hs. apply suffix_length in Hs. simpl in Hs.
  change {| self := (MoltbookClient p).1; proc := (MoltbookClient p).2 |}
    with (boot p).
  destruct (first_run (boot p)) as [[[]|e] st1]; simpl in *; [|done..].
  apply menu_loop_ends. lia.
Qed.

(** The first-run exchange up to the call of [register]. *)
Lemma first_run_run agent_name description rest st :
  truthy_opt (api_key (self st)) = false →
  stdin (proc st) = agent_name :: description :: rest →
  first_run st
  = register agent_name description
      (read_up_to rest
         (printed "Enter Agent Description: "
            (read_up_to (description :: rest)
               (printed "Enter Agent Name: "
                  (printed "Welcome to Moltbook! No credentials found." st))))).
Proof.
  intros Hkey Hin. unfold first_run.
  rewrite bind_run. unfold get_self at 1. cbv beta iota. rewrite Hkey.
  change (negb false) with true. cbv iota.
  rewrite bind_run, print_run.
  rewrite bind_run. erewrite input_run by exact Hin.
  rewrite bind_run. by erewrite input_run by reflexivity.
Qed.

(** X21: on a first run whose registration fails before the save loop,
    [run_menu] returns right after [register]: its final state is the one
    [register] left, whatever the number of rounds allowed, so the menu
    is never shown and nothing more is read or sent. *)
Theorem failed_first_registration_skips_the_menu
    fuel p agent_name description rest :
  truthy_opt (api_key (MoltbookClient p).1) = false →
  stdin p = agent_name :: description :: rest →
  fails_before_saving (boot p) agent_name description →
  run_menu fuel p
  = (Return Finished,
     (register agent_name description
        (read_up_to rest
           (printed "Enter Agent Description: "
              (read_up_to (description :: rest)
                 (printed "Enter Agent Name: "
                    (printed "Welcome to Moltbook! No credentials found."
                       (boot p))))))).2).
Proof.
  intros Hkey Hin Hfail. unfold run_menu. rewrite bind_run.
  change {| self := (MoltbookClient p).1; proc := (MoltbookClient p).2 |}
    with (boot p).
  rewrite (first_run_run agent_name description rest (boot p) Hkey Hin).
  set (st3 := read_up_to rest _).
  assert (fails_before_saving st3 agent_name description) as Hfail3.
  { destruct Hfail as [e H|r e H1 H2|r err H1 H2|r data H1 H2 H3
                      |r data v H1 H2 H3 H4].
    - by eapply transport_failure.
    - by eapply error_status.
    - by eapply parse_failure.
    - by eapply no_agent_data.
    - by eapply agent_not_a_record. }
  destruct (register_fails_early agent_name description st3 Hfail3)
    as (Hres & _).
  destruct (register agent_name description st3) as [o st4].
  simpl in Hres. by subst o.
Qed.

Lemma dispatch_branches :
  dispatch "1" = (view_feed ;; ret true)
  ∧ dispatch "2" = (new_post ;; ret true)
  ∧ dispatch "3" = (search ;; ret true)
  ∧ dispatch "4" = (new_submolt ;; ret true)
  ∧ dispatch "5" = (join_submolt ;; ret true)
  ∧ dispatch "6" = ret false.
Proof. by repeat split. Qed.

(** X22: a transport failure while posting is caught nowhere: it leaves
    the round and the loop, so the session ends with that exception, the
    confirmation line unprinted. *)
Theorem failed_post_ends_the_session fuel content rest e st :
  stdin (proc st) = "2" :: content :: rest →
  server (proc st) (post_request (self st) content) = Failed e →
  menu_loop (S fuel) st
  = (Raise e,
     requested (post_request (self st) content)
       (read_up_to rest
          (printed "What's on your mind? "
             (read_up_to (content :: rest)
                (printed choice_prompt (menu_shown st)))))).
Proof.
  intros Hin Hsrv. simpl menu_loop. rewrite bind_run.
  rewrite (menu_round_run "2" (content :: rest) st Hin).
  destruct dispatch_branches as (_ & -> & _).
  rewrite bind_run. unfold new_post.
  rewrite bind_run. erewrite input_run by reflexivity.
  rewrite bind_run. unfold post.
  rewrite (plain_call_run (λ c, post_request c content)). simpl.
  by rewrite Hsrv.
Qed.

(** X23: the same holds for the search: a transport failure or a body that
    is not JSON ends the session from the search branch. *)
Theorem failed_search_ends_the_session fuel query rest st :
  stdin (proc st) = "3" :: query :: rest →
  (∀ v, passed_on (server (proc st) (search_request (self st) query))
        ≠ Return v) →
  ∃ e,
    passed_on (server (proc st) (search_request (self st) query)) = Raise e
    ∧ menu_loop (S fuel) st
      = (Raise e,
         requested (search_request (self st) query)
           (read_up_to rest
              (printed "Search meaning: "
                 (read_up_to (query :: rest)
                    (printed choice_prompt (menu_shown st)))))).
Proof.
  intros Hin Hfail.
  destruct (passed_on (server (proc st) (search_request (self st) query)))
    as [v|e] eqn:Hpass; [by destruct (Hfail v)|].
  exists e. split; [done|].
  simpl menu_loop. rewrite bind_run.
  rewrite (menu_round_run "3" (query :: rest) st Hin).
  destruct dispatch_branches as (_ & _ & -> & _).
  rewrite bind_run. unfold search.
  rewrite bind_run. erewrite input_run by reflexivity.
  rewrite bind_run. unfold semantic_search.
  rewrite (plain_call_run (λ c, search_request c query)). simpl.
  by rewrite Hpass.
Qed.

(** X24: the create branch announces a creation for any JSON object that
    comes back, whatever the status, and prints None as the ID when the
    object has no [id]. *)
Theorem creation_is_announced_without_an_id n d rest r body st :
  stdin (proc st) = n :: d :: rest →
  server (proc st) (create_submolt_request (self st) n d) = Replied r →
  resp_body r = Json (PyDict body) →
  body !! "id" = None →
  new_submolt st
  = (Return tt,
     printed "✅ Created! ID: None"
       (requested (create_submolt_request (self st) n d)
          (read_up_to rest
             (printed "Description: "
                (read_up_to (d :: rest) (printed "Submolt Name: " st)))))).
Proof.
  intros Hin Hsrv Hbody Hid. unfold new_submolt.
  rewrite bind_run. erewrite input_run by exact Hin.
  rewrite bind_run. erewrite input_run by reflexivity.
  rewrite bind_run. unfold create_submolt.
  rewrite (plain_call_run (λ c, create_submolt_request c n d)). simpl.
  rewrite Hsrv. unfold passed_on, json. rewrite Hbody.
  rewrite bind_run. unfold lift at 1. simpl get. rewrite Hid. simpl.
  by rewrite print_run.
Qed.

Lemma stdout_after_lines {A} (f : A → string) (xs : list A) st :
  stdout (proc (foldl (λ s x, printed (f x) s) st xs))
  = stdout (proc st) ++ (f <$> xs).
Proof.
  revert st. induction xs as [|x xs IH]; intros st; simpl.
  - by rewrite app_nil_r.
  - rewrite IH. simpl. by rewrite <- app_assoc.
Qed.

Lemma results_run (l contents : list pyval) st :
  Forall2 (λ p c, ∃ dp, p = PyDict dp ∧ dp !! "content" = Some c) l contents →
  for_each l show_result st
  = (Return tt, foldl (λ s c, printed ("- " +:+ str c) s) st contents).
Proof.
  intros Hall. revert st.
  induction Hall as [|p c l contents (dp & -> & Hc) _ IH]; intros st; [done|].
  simpl for_each. rewrite bind_run. unfold show_result.
  rewrite bind_run. unfold lift at 1. simpl getitem. rewrite Hc.
  rewrite print_run. by rewrite IH.
Qed.

(** X25: the search prints one line for each post of the [posts] field of
    the reply, in order, with the [content] of the post; a reply without
    [posts] prints nothing, and the status of the reply is not looked at. *)
Theorem search_lists_the_contents query rest r d l contents st :
  stdin (proc st) = query :: rest →
  server (proc st) (search_request (self st) query) = Replied r →
  resp_body r = Json (PyDict d) →
  default (PyList []) (d !! "posts") = PyList l →
  Forall2 (λ p c, ∃ dp, p = PyDict dp ∧ dp !! "content" = Some c) l contents →
  (search st).1 = Return tt
  ∧ stdout (proc (search st).2)
    = stdout (proc st)
        ++ "Search meaning: " :: ((λ c, "- " +:+ str c) <$> contents).
Proof.
  intros Hin Hsrv Hbody Hposts Hall.
  assert (search st
          = (Return tt,
             foldl (λ s c, printed ("- " +:+ str c) s)
               (requested (search_request (self st) query)
                  (read_up_to rest (printed "Search meaning: " st)))
               contents)) as ->.
  { unfold search. rewrite bind_run. erewrite input_run by exact Hin.
    rewrite bind_run. unfold semantic_search.
    rewrite (plain_call_run (λ c, search_request c query)). simpl.
    rewrite Hsrv. unfold passed_on, json. rewrite Hbody.
    rewrite bind_run. unfold lift at 1. simpl get. rewrite Hposts.
    rewrite bind_run. unfold lift at 1. simpl iter. cbv beta iota.
    by rewrite (results_run l contents _ Hall). }
  split; [done|]. simpl. rewrite stdout_after_lines. simpl.
  by rewrite <- app_assoc.
Qed.

(** A round of a loop that raises in every state stops the loop. *)
Lemma for_each_stops {A} (body : A → M unit) (P : exn → Prop) l x :
  x ∈ l →
  (∀ y st e, (body y st).1 = Raise e → P e) →
  (∀ st, ∃ e, (body x st).1 = Raise e) →
  ∀ st, ∃ e, (for_each l body st).1 = Raise e ∧ P e.
Proof.
  intros Hin HP Hbad. induction l as [|y l IH]; [by apply elem_of_nil in Hin|].
  intros st. simpl. rewrite bind_run.
  destruct (body y st) as [[[]|e] st1] eqn:Hy.
  - apply elem_of_cons in Hin as [->|Hin].
    + destruct (Hbad st) as [e He]. by rewrite Hy in He.
    + by apply IH.
  - exists e. split; [done|]. apply (HP y st). by rewrite Hy.
Qed.

Lemma show_post_raises_AttributeError ip st e :
  (show_post ip st).1 = Raise e → exn_cls e = AttributeError.
Proof.
  unfold show_post. rewrite bind_run. unfold lift at 1.
  destruct ip.2 as [| | | | | |d]; simpl; try by intros [= <-].
  rewrite bind_run. unfold lift at 1.
  destruct (default (PyDict ∅) (d !! "author")); simpl; by intros [= <-].
Qed.

(** X26: a post among the first ten whose [author] is not a record (null,
    a text, a number) stops the view with an [AttributeError]: nothing
    catches it and the selection is never reached. *)
Theorem bad_author_stops_the_view l k d v st :
  (get_feed st).1 = Return (PyList l) →
  l !! k = Some (PyDict d) →
  k < 10 →
  d !! "author" = Some v →
  (∀ a, v ≠ PyDict a) →
  ∃ e, (view_feed st).1 = Raise e ∧ exn_cls e = AttributeError.
Proof.
  intros Hfeed Hk Hlt Hauthor Hv.
  assert (truthy (PyList l) = true) as Hl by (by destruct l).
  assert ((k, PyDict d) ∈ enumerate (take 10 l)) as Hin.
  { unfold enumerate. apply elem_of_lookup_imap. exists k, (PyDict d).
    split; [done|]. by rewrite lookup_take_lt. }
  unfold view_feed. rewrite bind_run.
  destruct (get_feed st) as [o st1]. simpl in Hfeed. subst o.
  cbv beta iota. rewrite Hl. change (negb true) with false. cbv iota.
  rewrite bind_run. unfold lift at 1. simpl slice. cbv beta iota.
  rewrite bind_run.
  destruct (for_each_stops show_post (λ e, exn_cls e = AttributeError)
              (enumerate (take 10 l)) (k, PyDict d) Hin
              show_post_raises_AttributeError) with (st := st1)
    as (e & He & Hcls).
  { intros st'. exists (no_attribute v "get"). unfold show_post. simpl.
    rewrite bind_run. unfold lift at 1. rewrite Hauthor. simpl.
    rewrite bind_run. unfold lift at 1.
    destruct v; try done. by destruct (Hv d0). }
  exists e. split; [|done].
  destruct (for_each (enumerate (take 10 l)) show_post st1) as [o st2].
  simpl in He. by subst o.
Qed.

(** ** The feed view as a whole *)

Global Instance output_grows_refl : Reflexive output_grows.
Proof. intros st. unfold output_grows. reflexivity. Qed.

Global Instance output_grows_trans : Transitive output_grows.
Proof. unfold output_grows. intros st1 st2 st3 H1 H2. by etransitivity. Qed.

Lemma print_grows s : keeps output_grows (print s).
Proof. intros st. unfold output_grows. simpl. by apply prefix_app_r. Qed.

Lemma input_grows prompt : keeps output_grows (input prompt).
Proof.
  intros st. unfold input, output_grows. rewrite bind_run. simpl.
  destruct (stdin (proc st)); simpl; by apply prefix_app_r.
Qed.

Lemma send_grows rq : keeps output_grows (send rq).
Proof.
  intros st. unfold send, output_grows.
  destruct (server (proc st) rq); simpl; reflexivity.
Qed.

(** The body of the listing loop on a post it can show. *)
Lemma show_post_listable ip st :
  listable ip.2 = true →
  show_post ip st = (Return tt, printed (feed_line ip) st).
Proof.
  destruct ip as [i p]. simpl. intros Hp. unfold show_post, feed_line. simpl.
  destruct p as [| | | | | |d]; try done. simpl in Hp.
  rewrite bind_run. unfold lift at 1. simpl get.
  destruct (d !! "author") as [au|] eqn:Hau; simpl.
  - destruct au as [| | | | | |a]; try done.
    rewrite bind_run. unfold lift at 1. simpl.
    rewrite bind_run. unfold lift at 1. rewrite print_run.
    unfold author_shown. by rewrite Hau.
  - rewrite bind_run. unfold lift at 1. rewrite lookup_empty. simpl.
    rewrite bind_run. unfold lift at 1. rewrite print_run.
    unfold author_shown. by rewrite Hau.
Qed.

Lemma listing_run_from (f : nat → nat) (ps : list pyval) st :
  forallb listable ps = true →
  for_each (imap (λ j p, (f j, p)) ps) show_post st
  = (Return tt,
     foldl (λ s ip, printed (feed_line ip) s) st (imap (λ j p, (f j, p)) ps)).
Proof.
  revert f st. induction ps as [|p ps IH]; intros f st Hall; [done|].
  simpl in Hall. apply andb_true_iff in Hall as [Hp Hps].
  simpl. rewrite bind_run, (show_post_listable (f 0, p) st Hp).
  exact (IH (f ∘ S) _ Hps).
Qed.

(** The listing loop on posts it can show: one line for each, in order. *)
Lemma listing_run (ps : list pyval) st :
  forallb listable ps = true →
  for_each (enumerate ps) show_post st
  = (Return tt, foldl (λ s ip, printed (feed_line ip) s) st (enumerate ps)).
Proof. intros Hall. exact (listing_run_from (λ j, j) ps st Hall). Qed.

(** Printing lines touches nothing but the output. *)
Lemma printed_lines_elsewhere {A} (f : A → string) (xs : list A) st :
  self (foldl (λ s x, printed (f x) s) st xs) = self st
  ∧ stdin (proc (foldl (λ s x, printed (f x) s) st xs)) = stdin (proc st)
  ∧ sent (proc (foldl (λ s x, printed (f x) s) st xs)) = sent (proc st)
  ∧ server (proc (foldl (λ s x, printed (f x) s) st xs)) = server (proc st).
Proof.
  revert st. induction xs as [|x xs IH]; intros st; simpl; [done|].
  destruct (IH (printed (f x) st)) as (H1 & H2 & H3 & H4).
  rewrite H1, H2, H3, H4. done.
Qed.

(** What follows the two prompts of the selection only adds to the
    output. *)
Lemma answer_grows target action :
  keeps output_grows
    (if String.eqb (lower action) "r" then
       post_id <- lift (getitem target "id") ;;
       message <- input "Message: " ;;
       comment post_id message ;;
       print "✅ Reply sent!"
     else if String.eqb (lower action) "v" then
       post_id <- lift (getitem target "id") ;;
       vote post_id "up" ;;
       print "✅ Upvoted!"
     else ret tt).
Proof.
  unfold comment, vote.
  keeps_with
    ltac:(first [ apply print_grows | apply input_grows | apply send_grows ]).
Qed.

(** C10: when [get_feed] returns a feed of [n] posts, the view lists the
    first ten of them at most, one line for each in order, and then asks
    for a number; a typed [i] with [0 < i <= n] is accepted and the vote or
    the reply that follows is sent for the post at position [i - 1] of the
    whole feed, which for [i > 10] is none of the posts listed. *)
Theorem view_feed_selects_beyond_the_listing
    l i d post_id action more st :
  (get_feed st).1 = Return (PyList l) →
  forallb listable (take 10 l) = true →
  0 < i ≤ length l →
  l !! (i - 1) = Some (PyDict d) →
  d !! "id" = Some post_id →
  stdin (proc st) = str_nat i :: action :: more →
  let res := view_feed st in
  let listing := feed_line <$> enumerate (take 10 l) in
  length listing = Nat.min 10 (length l)
  ∧ stdout (proc st) ++ listing ++ [selection_prompt; "(r)eply or (v)ote? "]
      `prefix_of` stdout (proc res.2)
  ∧ (lower action = "v" →
     sent (proc res.2)
     = sent (proc st)
         ++ [feed_request (self st); vote_request (self st) post_id "up"]
     ∧ stdin (proc res.2) = more)
  ∧ (lower action = "r" →
     ∀ message rest, more = message :: rest →
       sent (proc res.2)
       = sent (proc st)
           ++ [feed_request (self st);
               comment_request (self st) post_id message]
       ∧ stdin (proc res.2) = rest)
  ∧ (10 < i → take 10 l !! (i - 1) = None).
Proof.
  intros Hfeed Hlist Hi Htarget Hid Hin res listing.
  assert (truthy (PyList l) = true) as Hl.
  { destruct l; [simpl in Hi; lia|done]. }
  set (st2 := foldl (λ s ip, printed (feed_line ip) s)
                (requested (feed_request (self st)) st)
                (enumerate (take 10 l))).
  assert (res = reply_or_vote (PyList l) st2) as Hres.
  { subst res. unfold view_feed. rewrite bind_run.
    pose proof (get_feed_state st) as Hst.
    destruct (get_feed st) as [o st1]. simpl in Hfeed, Hst. subst o st1.
    cbv beta iota. rewrite Hl. change (negb true) with false. cbv iota.
    rewrite bind_run. unfold lift at 1. simpl slice. cbv beta iota.
    rewrite bind_run. by rewrite (listing_run (take 10 l) _ Hlist). }
  clearbody res.
  destruct (printed_lines_elsewhere feed_line (enumerate (take 10 l))
              (requested (feed_request (self st)) st))
    as (Hself & Hstdin & Hsent & _).
  pose proof (stdout_after_lines feed_line (enumerate (take 10 l))
                (requested (feed_request (self st)) st)) as Hout.
  fold st2 in Hself, Hstdin, Hsent, Hout. fold listing in Hout.
  simpl in Hself, Hstdin, Hsent, Hout. clearbody st2.
  rewrite Hin in Hstdin.
  rewrite (selection_run l i (PyDict d) action more st2 Hi Htarget Hstdin)
    in Hres.
  split.
  { subst listing. rewrite length_fmap. unfold enumerate.
    by rewrite length_imap, length_take. }
  split.
  { pose proof (answer_grows (PyDict d) action
                  (read_up_to more
                     (printed "(r)eply or (v)ote? "
                        (read_up_to (action :: more)
                           (printed selection_prompt st2))))) as Hgrow.
    rewrite <- Hres in Hgrow. unfold output_grows in Hgrow. simpl in Hgrow.
    rewrite Hout in Hgrow. by rewrite <- !app_assoc in Hgrow. }
  split.
  { intros Hv. rewrite Hv in Hres.
    change (String.eqb "v" "r") with false in Hres.
    rewrite String.eqb_refl in Hres.
    rewrite bind_run in Hres. unfold lift at 1 in Hres.
    simpl getitem in Hres. rewrite Hid in Hres.
    rewrite bind_run in Hres. unfold vote in Hres.
    rewrite (plain_call_run (λ c, vote_request c post_id "up")) in Hres.
    simpl in Hres.
    destruct (passed_on _); rewrite Hres; simpl;
      by rewrite Hsent, Hself, <- app_assoc. }
  split.
  { intros Hr message rest ->. rewrite Hr, String.eqb_refl in Hres.
    rewrite bind_run in Hres. unfold lift at 1 in Hres.
    simpl getitem in Hres. rewrite Hid in Hres.
    rewrite bind_run in Hres.
    erewrite input_run in Hres by reflexivity.
    rewrite bind_run in Hres. unfold comment in Hres.
    rewrite (plain_call_run (λ c, comment_request c post_id message)) in Hres.
    simpl in Hres.
    destruct (passed_on _); rewrite Hres; simpl;
      by rewrite Hsent, Hself, <- app_assoc. }
  intros Hbig. apply lookup_ge_None. rewrite length_take. lia.
Qed.

End Client.

(** * The theorems at work on sample machines *)



(** A body without [agent]: nothing is written. *)
Lemma register_without_agent_witness :
  let st := boot (machine (server_json (PyDict {[ "error" := PyStr "name taken" ]}))) in
  let res := register sample_repr "molty" "a crab" st in
  res.1 = Return false ∧ dotenv_file (proc res.2) = None.
Proof.
  intros st res.
  destruct (register_without_agent sample_repr "molty" "a crab" st
              (ok_response (PyDict {[ "error" := PyStr "name taken" ]}))
              (PyDict {[ "error" := PyStr "name taken" ]}))
    as (Hres & Hfile & _); [reflexivity..|].
  split; [exact Hres|exact Hfile].
Defined.


(** C3, refuted as stated: with the server out of reach the search raises
    the connection error to its caller instead of returning an empty
    result. *)
Lemma semantic_search_raises_when_down :
  (semantic_search "reef" (boot (machine server_down))).1
  = Raise (Exception ConnectionError "Connection refused").
Proof. reflexivity. Qed.

(** A feed that cannot be fetched is the empty list. *)
Lemma get_feed_degrades_witness :
  (get_feed (boot (machine server_down))).1 = Return (PyList []).
Proof.
  apply (get_feed_degrades (boot (machine server_down))). exact I.
Defined.

(** C5, refuted as stated: the id of [zero_agent] is present (the number
    zero) and yet it is not saved, while the text None is written as the
    value of the name. *)
Lemma zero_id_is_dropped_and_None_is_written :
  let st := boot (machine (server_json (registered zero_agent))) in
  let res := register sample_repr "None" "a crab" st in
  get zero_agent "id" PyNone = Return (PyInt 0)
  ∧ present_nonempty (PyInt 0) = true
  ∧ res.1 = Return true
  ∧ dotenv_file (proc res.2)
    = Some [ ("MOLTBOOK_API_KEY", Some "moltbook_sk_1");
             ("MOLTBOOK_CLAIM_URL", Some "https://www.moltbook.com/claim/0");
             ("MOLTBOOK_NAME", Some "None") ].
Proof. vm_compute. repeat split. Qed.

(** The entries saved for the sample agent. *)
Lemma saved_entries_are_the_truthy_ones_witness :
  let st := boot (machine server_down) in
  let a : gmap string pyval :=
    {[ "id" := PyStr "a1"; "api_key" := PyStr "moltbook_sk_1";
       "verification_code" := PyNone ]} in
  store (proc (save_mapping sample_repr (mapping_of a) st).2)
  = [ ("MOLTBOOK_ID", Some "a1"); ("MOLTBOOK_API_KEY", Some "moltbook_sk_1") ]
  ∧ entry_value "MOLTBOOK_VERIFY_CODE" (persisted sample_repr (mapping_of a)) = None.
Proof.
  intros st a.
  destruct (saved_entries_are_the_truthy_ones sample_repr a st)
    as (_ & Hsave & _ & Hnone).
  destruct Hsave as [_ Hstore]; [constructor|].
  split.
  - rewrite Hstore. reflexivity.
  - apply (Hnone "MOLTBOOK_VERIFY_CODE" "verification_code").
    + unfold mapping_fields. set_solver.
    + right. reflexivity.
Defined.

(** Without a key there is no header on any request. *)
Lemma authorization_iff_key_witness :
  let c := (MoltbookClient (machine server_down)).1 in
  _get_headers c = ∅
  ∧ rq_headers (vote_request sample_repr c (PyInt 7) "up") !! "Authorization" = None.
Proof.
  intros c.
  destruct (authorization_iff_key sample_repr c) as [_ Hnone].
  destruct Hnone as [Hempty Hrq]; [left; reflexivity|].
  split; [exact Hempty|]. apply Hrq. left. constructor.
Defined.



(** C8, refuted as stated: no file and no API key, yet the client has an
    id and a name other than the default, taken from the environment. *)
Lemma exported_identity_is_loaded :
  let c := (MoltbookClient exported_identity).1 in
  dotenv_file exported_identity = None
  ∧ environ exported_identity !! "MOLTBOOK_API_KEY" = None
  ∧ api_key c = None
  ∧ agent_id c = Some "a42"
  ∧ name c = "molty".
Proof. vm_compute. repeat split. Qed.

Lemma first_run_identity_witness :
  let c := (MoltbookClient (machine server_down)).1 in
  api_key c = None ∧ agent_id c = None ∧ name c = "Unknown Agent".
Proof.
  intros c.
  destruct (first_run_identity (machine server_down)) as (Hk & Hi & Hn & _);
    [reflexivity..|].
  split; [exact Hk|]. split; [exact Hi|exact Hn].
Defined.

Lemma default_display_name_witness :
  name (MoltbookClient (machine server_down)).1 = "Unknown Agent".
Proof.
  apply (default_display_name (machine server_down)). reflexivity.
Defined.

(** On the sample feed of eleven posts the typed 11 is accepted and the
    vote goes to the eleventh post, which the listing does not show. *)
Lemma view_feed_selects_beyond_the_listing_witness :
  let res := view_feed sample_repr long_feed_session in
  rq_url <$> sent (proc res.2)
  = [ "https://www.moltbook.com/api/v1/feed";
      "https://www.moltbook.com/api/v1/posts/11/vote" ]
  ∧ stdin (proc res.2) = ["6"]
  ∧ take 10 sample_posts !! 10 = None.
Proof.
  intros res.
  destruct (view_feed_selects_beyond_the_listing sample_repr
              sample_posts 11
              {[ "id" := PyInt 11; "content" := PyStr "hello";
                 "author" := PyDict {[ "name" := PyStr "crab" ]} ]}
              (PyInt 11) "V" ["6"] long_feed_session)
    as (_ & _ & Hvote & _ & Hhidden);
    [vm_compute; reflexivity|vm_compute; reflexivity|vm_compute; lia
    |vm_compute; reflexivity|reflexivity|reflexivity|].
  destruct (Hvote eq_refl) as [Hsent Hstdin].
  split; [|split; [exact Hstdin|apply Hhidden; lia]].
  fold res in Hsent. rewrite Hsent. vm_compute. reflexivity.
Defined.

(** The whole branch on the sample feed: the first ten posts are listed,
    one line each, then come the two prompts and the confirmation, and the
    vote goes to post 11, which was not listed. *)
Example view_feed_votes_for_the_eleventh_post :
  let res := view_feed sample_repr feed_session in
  res.1 = Return tt
  ∧ rq_url <$> sent (proc res.2)
    = [ "https://www.moltbook.com/api/v1/feed";
        "https://www.moltbook.com/api/v1/posts/11/vote" ]
  ∧ take 10 (stdout (proc res.2))
    = (λ n, str_nat n +:+ ". [crab]: hello") <$> seq 1 10
  ∧ length (stdout (proc res.2)) = 13.
Proof. vm_compute. repeat split. Qed.

(** ** More runs on sample machines *)

Lemma get_feed_returns_posts_whatever_the_status_witness :
  (get_feed (boot (machine (server_unauthorized
                              (PyDict {[ "posts" := PyNone ]}))))).1
  = Return PyNone.
Proof.
  apply (get_feed_returns_posts_whatever_the_status _
           (unauthorized (PyDict {[ "posts" := PyNone ]}))
           {[ "posts" := PyNone ]}); reflexivity.
Defined.


Lemma failed_registration_can_leave_an_empty_file_witness :
  let st := boot (machine (server_json (registered (PyStr "pending")))) in
  let res := register sample_repr "molty" "a crab" st in
  dotenv_file (proc st) = None
  ∧ res.1 = Return false
  ∧ dotenv_file (proc res.2) = Some [].
Proof.
  intros st res. split; [reflexivity|].
  apply (failed_registration_can_leave_an_empty_file sample_repr
           "molty" "a crab" st
           (ok_response (registered (PyStr "pending")))
           (registered (PyStr "pending")) (PyStr "pending"));
    try reflexivity; done.
Defined.



Lemma empty_feed_is_reported_without_a_prompt_witness :
  let st := typing ["1"] server_down in
  (view_feed sample_repr st).1 = Return tt
  ∧ stdin (proc (view_feed sample_repr st).2) = ["1"].
Proof.
  intros st.
  rewrite (empty_feed_is_reported_without_a_prompt sample_repr st (PyList []));
    [|reflexivity..].
  split; reflexivity.
Defined.

Lemma missing_author_is_listed_as_Unknown_witness :
  stdout (proc (show_post sample_repr (1, PyDict anonymous_post)
                  (boot (machine server_down))).2)
  = [ "2. [Unknown]: yo" ].
Proof.
  rewrite (missing_author_is_listed_as_Unknown sample_repr 1 anonymous_post);
    [reflexivity|].
  left. reflexivity.
Defined.


Lemma reply_goes_to_the_selected_post_witness :
  let st := typing ["2"; "R"; "nice"; "6"] server_down in
  let res := reply_or_vote sample_repr (PyList sample_posts) st in
  rq_url <$> sent (proc res.2)
  = [ "https://www.moltbook.com/api/v1/posts/2/comments" ]
  ∧ stdin (proc res.2) = ["6"].
Proof.
  intros st res.
  destruct (reply_goes_to_the_selected_post sample_repr sample_posts 2
              {[ "id" := PyInt 2; "content" := PyStr "hello";
                 "author" := PyDict {[ "name" := PyStr "crab" ]} ]}
              (PyInt 2) "R" "nice" ["6"] st)
    as [Hsent Hin]; [vm_compute; lia|reflexivity..|].
  fold res in Hsent, Hin. split; [|exact Hin]. rewrite Hsent. reflexivity.
Defined.

Lemma other_answers_send_nothing_witness :
  let st := typing ["2"; "x"; "6"] server_down in
  let res := reply_or_vote sample_repr (PyList sample_posts) st in
  res.1 = Return tt ∧ sent (proc res.2) = [] ∧ stdin (proc res.2) = ["6"].
Proof.
  intros st res.
  apply (other_answers_send_nothing sample_repr sample_posts 2
           (sample_post 2) "x" ["6"] st);
    [vm_compute; lia|reflexivity|reflexivity|discriminate|discriminate].
Defined.

Lemma post_without_id_raises_KeyError_witness :
  let st := typing ["1"; "v"] server_down in
  (reply_or_vote sample_repr (PyList [PyDict anonymous_post]) st).1
  = Raise (Exception KeyError "'id'").
Proof.
  intros st.
  apply (post_without_id_raises_KeyError sample_repr [PyDict anonymous_post] 1
           anonymous_post "v" [] st);
    [simpl; lia|reflexivity|reflexivity|reflexivity|].
  right. reflexivity.
Defined.

Lemma only_choice_six_breaks_the_loop_witness :
  (menu_round sample_repr (typing ["6"] server_down)).1 = Return false.
Proof.
  apply (only_choice_six_breaks_the_loop sample_repr). by exists [].
Defined.

Lemma run_menu_ends_on_finite_input_witness :
  (run_menu sample_repr 3 (first_run_machine ["molty"; "a crab"] server_down)).1
  ≠ Return OutOfFuel.
Proof.
  apply (run_menu_ends_on_finite_input sample_repr). simpl. lia.
Defined.

Lemma failed_first_registration_skips_the_menu_witness :
  (run_menu sample_repr 3 (first_run_machine ["molty"; "a crab"; "1"] server_down)).1
  = Return Finished.
Proof.
  rewrite (failed_first_registration_skips_the_menu sample_repr 3
             (first_run_machine ["molty"; "a crab"; "1"] server_down)
             "molty" "a crab" ["1"]); [reflexivity..|].
  apply (transport_failure _ "molty" "a crab"
           (Exception ConnectionError "Connection refused")).
  reflexivity.
Defined.

Lemma failed_post_ends_the_session_witness :
  (menu_loop sample_repr 5 (typing ["2"; "hello"; "6"] server_down)).1
  = Raise (Exception ConnectionError "Connection refused").
Proof.
  rewrite (failed_post_ends_the_session sample_repr 4 "hello" ["6"]
             (Exception ConnectionError "Connection refused"));
    reflexivity.
Defined.

Lemma failed_search_ends_the_session_witness :
  (menu_loop sample_repr 5 (typing ["3"; "reef"; "6"] server_down)).1
  = Raise (Exception ConnectionError "Connection refused").
Proof.
  destruct (failed_search_ends_the_session sample_repr 4 "reef" ["6"]
              (typing ["3"; "reef"; "6"] server_down))
    as (e & He & Hrun); [reflexivity|by intros v|].
  rewrite Hrun. simpl. simpl in He. by injection He as <-.
Defined.

Lemma creation_is_announced_without_an_id_witness :
  let st := typing ["reef"; "about reefs"]
              (server_unauthorized (PyDict {[ "error" := PyStr "claim first" ]})) in
  last (stdout (proc (new_submolt sample_repr st).2))
  = Some "✅ Created! ID: None".
Proof.
  intros st.
  rewrite (creation_is_announced_without_an_id sample_repr
             "reef" "about reefs" []
             (unauthorized (PyDict {[ "error" := PyStr "claim first" ]}))
             {[ "error" := PyStr "claim first" ]} st); reflexivity.
Defined.

Lemma search_lists_the_contents_witness :
  let st := typing ["reef"]
              (server_json (PyDict {[ "posts" := PyList (take 2 sample_posts) ]})) in
  stdout (proc (search sample_repr st).2)
  = [ "Search meaning: "; "- hello"; "- hello" ].
Proof.
  intros st.
  destruct (search_lists_the_contents sample_repr "reef" []
              (ok_response (PyDict {[ "posts" := PyList (take 2 sample_posts) ]}))
              {[ "posts" := PyList (take 2 sample_posts) ]}
              (take 2 sample_posts) [PyStr "hello"; PyStr "hello"] st)
    as [_ Hout]; [reflexivity..| |exact Hout].
  repeat constructor; eexists; (split; [reflexivity|reflexivity]).
Defined.

Lemma bad_author_stops_the_view_witness :
  let st := typing ["1"]
              (server_json (PyDict {[ "posts" := PyList [sample_post 1;
                                                         PyDict orphan_post] ]})) in
  ∃ e, (view_feed sample_repr st).1 = Raise e ∧ exn_cls e = AttributeError.
Proof.
  intros st.
  apply (bad_author_stops_the_view sample_repr
           [sample_post 1; PyDict orphan_post] 1 orphan_post PyNone st);
    [reflexivity|reflexivity|lia|reflexivity|done].
Defined.
